(** * Beam Health backend: the appointment queries of [main.py]

    A shallow embedding of the two appointment endpoints of [src/main.py]

      - [get_active_appointment]   ([GET /api/appointments/active])
      - [get_current_appointment]  ([GET /api/patients/{id}/current-appointment])

    together with the parts of Python they rely on: JSON values as loaded by
    [json.load], dictionary access ([d.get(k)], [d.get(k, default)], [d[k]]),
    truthiness, [==], exceptions, [datetime] / [timedelta] arithmetic with
    their range checks, and the stable [list.sort(key=...)].

    Scope of the model.
      - JSON numbers are integers ([JInt]); floats are outside the model.
      - [appointments.json] is a list of JSON objects; reading it
        ([load_json_data]) is outside the model, the list is an argument.
      - [print] calls are dropped, except where building the printed text
        can raise ([apt['id']], [result['id']]).
      - The [detail] text of an [HTTPException] is not modelled: a failed
        call is [Http500].
      - [datetime.fromisoformat] is a library function whose accepted syntax
        depends on the Python version: the development is parametric in it
        (a [Section] variable); [fromisoformat_fixed] is an instance for the
        fixed-width form that [datetime.isoformat()] writes, used to run the
        definitions on concrete inputs. *)

From Stdlib Require Import ZArith Lia Bool Ascii String List.
From stdpp Require Import base tactics option list sorting gmap strings.

Set Warnings "-register-all".

Local Open Scope string_scope.
Local Open Scope list_scope.
Local Open Scope Z_scope.

(** ** JSON values and Python's view of them *)

Inductive json : Type :=
| JNull
| JBool (b : bool)
| JInt (z : Z)
| JStr (s : string)
| JArr (items : list json)
| JObj (fields : list (string * json)).

(** An appointment is a JSON object, that is a Python [dict] with string keys. *)
Abbreviation dict := (gmap string json).

(** [d.get(k)]: the value, or [None] when the key is absent. *)
Definition py_get (d : dict) (k : string) : json :=
  match d !! k with
  | Some v => v
  | None => JNull
  end.

(** [d.get(k, dflt)]: the default is used only when the key is absent. *)
Definition py_get_default (d : dict) (k : string) (dflt : json) : json :=
  match d !! k with
  | Some v => v
  | None => dflt
  end.

(** Truth value of a Python object, as [if x] and [x and y] test it. *)
Definition truthy (v : json) : bool :=
  match v with
  | JNull => false
  | JBool b => b
  | JInt z => negb (z =? 0)
  | JStr s => negb (String.eqb s "")
  | JArr items => match items with [] => false | _ :: _ => true end
  | JObj fields => match fields with [] => false | _ :: _ => true end
  end.

(** [v == s] for a string literal [s]. *)
Definition py_eq_str (v : json) (s : string) : bool :=
  match v with
  | JStr t => String.eqb t s
  | _ => false
  end.

(** [v == n] for an [int] [n]; [bool] is a subclass of [int] in Python, so
    [True == 1] and [False == 0]. *)
Definition py_eq_int (v : json) (n : Z) : bool :=
  match v with
  | JInt z => z =? n
  | JBool b => (if b then 1 else 0) =? n
  | _ => false
  end.

(** ** Exceptions *)

Inductive exn : Type :=
| ValueError | KeyError | TypeError | OverflowError | IndexError.

(** A computation that returns a value or raises. *)
Definition exc (A : Type) : Type := (exn + A)%type.

Definition raise {A : Type} (e : exn) : exc A := inl e.
Definition ret {A : Type} (a : A) : exc A := inr a.

Definition bind {A B : Type} (c : exc A) (k : A -> exc B) : exc B :=
  match c with
  | inl e => inl e
  | inr a => k a
  end.

Notation "'let*' x ':=' c 'in' k" := (bind c (fun x => k))
  (at level 10, x name, c at level 100, k at level 200).

(** [d[k]]: raises [KeyError] when the key is absent. *)
Definition py_getitem (d : dict) (k : string) : exc json :=
  match d !! k with
  | Some v => ret v
  | None => raise KeyError
  end.

(** ** [datetime] and [timedelta]

    A [datetime] is kept as the number of microseconds of its wall-clock
    fields since 0001-01-01T00:00:00, with the UTC offset (in microseconds)
    when it is timezone-aware. A [timedelta] is a number of microseconds. *)

Inductive datetime : Type :=
| Naive (us : Z)
| Aware (us : Z) (utcoffset : Z).

Definition wall (d : datetime) : Z :=
  match d with
  | Naive us => us
  | Aware us _ => us
  end.

Definition US_PER_MINUTE : Z := 60000000.
Definition US_PER_HOUR : Z := 3600000000.
Definition US_PER_DAY : Z := 86400000000.

(** [date.max.toordinal()]: 9999-12-31 is day 3652059, 0001-01-01 is day 1. *)
Definition MAXORDINAL : Z := 3652059.

(** First microsecond after [datetime.max]. *)
Definition DATETIME_END : Z := MAXORDINAL * US_PER_DAY.

(** The [timedelta] constructor normalises to days, seconds and microseconds
    and raises [OverflowError] unless [-999999999 <= days <= 999999999]. *)
Definition mk_timedelta (us : Z) : exc Z :=
  let days := us / US_PER_DAY in
  if (-999999999 <=? days) && (days <=? 999999999) then ret us
  else raise OverflowError.

(** [timedelta(minutes=v)] for a value read from JSON. Floats are outside
    the model: a [NaN] would raise [ValueError] here. *)
Definition timedelta_minutes (v : json) : exc Z :=
  match v with
  | JInt m => mk_timedelta (m * US_PER_MINUTE)
  | JBool b => mk_timedelta ((if b then 1 else 0) * US_PER_MINUTE)
  | _ => raise TypeError
  end.

(** [timedelta(hours=h)]. *)
Definition timedelta_hours (h : Z) : exc Z := mk_timedelta (h * US_PER_HOUR).

(** [d + td]: the fields move, the tzinfo stays; [OverflowError] when the
    result leaves [datetime.min .. datetime.max]. *)
Definition dt_add (d : datetime) (td : Z) : exc datetime :=
  let us := wall d + td in
  if (0 <=? us) && (us <? DATETIME_END) then
    ret (match d with
         | Naive _ => Naive us
         | Aware _ off => Aware us off
         end)
  else raise OverflowError.

(** [d.replace(tzinfo=None)]. *)
Definition replace_tzinfo_none (d : datetime) : datetime := Naive (wall d).

(** [a <= b]: naive and aware datetimes cannot be ordered ([TypeError]). *)
Definition dt_le (a b : datetime) : exc bool :=
  match a, b with
  | Naive x, Naive y => ret (x <=? y)
  | Aware x ox, Aware y oy => ret (x - ox <=? y - oy)
  | _, _ => raise TypeError
  end.

(** [a < b]. *)
Definition dt_lt (a b : datetime) : exc bool :=
  match a, b with
  | Naive x, Naive y => ret (x <? y)
  | Aware x ox, Aware y oy => ret (x - ox <? y - oy)
  | _, _ => raise TypeError
  end.

(** [a >= b]. *)
Definition dt_ge (a b : datetime) : exc bool := dt_le b a.

(** ** An instance of [datetime.fromisoformat]

    [fromisoformat_fixed] reads the 19-character form
    [YYYY-MM-DD?HH:MM:SS], where [?] is any single character (Python accepts
    any separator there), and rejects every other string. The calendar
    arithmetic follows [datetime.py] ([_ymd2ord]). *)

Definition digit_of (c : ascii) : option Z :=
  let n := Z.of_N (N_of_ascii c) in
  if (48 <=? n) && (n <=? 57) then Some (n - 48) else None.

Definition two_digits (a b : ascii) : option Z :=
  match digit_of a, digit_of b with
  | Some x, Some y => Some (10 * x + y)
  | _, _ => None
  end.

Definition four_digits (a b c d : ascii) : option Z :=
  match two_digits a b, two_digits c d with
  | Some x, Some y => Some (100 * x + y)
  | _, _ => None
  end.

Definition is_leap (y : Z) : bool :=
  (y mod 4 =? 0) && (negb (y mod 100 =? 0) || (y mod 400 =? 0)).

Definition days_before_year (y : Z) : Z :=
  let p := y - 1 in p * 365 + p / 4 - p / 100 + p / 400.

Definition days_in_month (y m : Z) : Z :=
  if m =? 2 then (if is_leap y then 29 else 28)
  else if (m =? 4) || (m =? 6) || (m =? 9) || (m =? 11) then 30
  else 31.

Definition DAYS_BEFORE_MONTH : list Z :=
  [0; 31; 59; 90; 120; 151; 181; 212; 243; 273; 304; 334].

Definition days_before_month (y m : Z) : Z :=
  nth (Z.to_nat (m - 1)) DAYS_BEFORE_MONTH 0
  + (if (2 <? m) && is_leap y then 1 else 0).

Definition ymd2ord (y m d : Z) : Z :=
  days_before_year y + days_before_month y m + d.

Definition mk_naive (y m d hh mm ss : Z) : option datetime :=
  if (1 <=? y) && (1 <=? m) && (m <=? 12) && (1 <=? d)
     && (d <=? days_in_month y m)
     && (hh <=? 23) && (mm <=? 59) && (ss <=? 59)
  then Some (Naive ((ymd2ord y m d - 1) * US_PER_DAY + hh * US_PER_HOUR
                    + mm * US_PER_MINUTE + ss * 1000000))
  else None.

Definition fromisoformat_fixed (s : string) : option datetime :=
  match list_ascii_of_string s with
  | [y1; y2; y3; y4; c4; m1; m2; c7; d1; d2; _; h1; h2; c13; n1; n2; c16; s1; s2] =>
    if Ascii.eqb c4 "-" && Ascii.eqb c7 "-"
       && Ascii.eqb c13 ":" && Ascii.eqb c16 ":"
    then
      match four_digits y1 y2 y3 y4, two_digits m1 m2, two_digits d1 d2,
            two_digits h1 h2, two_digits n1 n2, two_digits s1 s2 with
      | Some y, Some m, Some d, Some hh, Some mm, Some ss =>
        mk_naive y m d hh mm ss
      | _, _, _, _, _, _ => None
      end
    else None
  | _ => None
  end.

(** ** HTTP responses

    A successful call answers with a JSON object or with [null]; [{}] is the
    empty dictionary. A failed call answers with status 500. *)

Inductive response : Type :=
| Http200 (body : option dict)
| Http500.

(** ** [list.sort(key=lambda x: x.get("start", ""))]

    Both endpoints sort records whose [start] passed [fromisoformat], so the
    keys compared are always strings (lemmas [scan_start_is_str] and
    [scan_upcoming_start_is_str]); strings compare by code point, which is the
    byte order of their UTF-8 encoding. [list.sort] is stable; the sorted
    list is built by stable insertion, using only [<] as Python does. *)

Definition start_key (x : dict) : string :=
  match py_get_default x "start" (JStr "") with
  | JStr s => s
  | _ => ""
  end.

Fixpoint insert_by_start (x : dict) (l : list dict) : list dict :=
  match l with
  | [] => [x]
  | y :: l' =>
    if String.ltb (start_key y) (start_key x) then y :: insert_by_start x l'
    else x :: y :: l'
  end.

Definition sort_by_start (l : list dict) : list dict :=
  foldr insert_by_start [] l.

(** The leftmost record among those with the smallest key. *)
Fixpoint first_min_start (l : list dict) : option dict :=
  match l with
  | [] => None
  | x :: l' =>
    match first_min_start l' with
    | None => Some x
    | Some m => if String.ltb (start_key m) (start_key x) then Some m else Some x
    end
  end.

(** What one iteration of the loop of [get_active_appointment] does with a
    record. *)
Inductive verdict : Type :=
| Discarded            (* fails the [status] / [patient_id] test *)
| Skipped (e : exn)    (* [ValueError] or [KeyError], caught: [continue] *)
| Inactive             (* the window does not contain [now] *)
| Active               (* appended to [active_appointments] *)
| Raised (e : exn).    (* an exception the inner handler does not catch *)

#[global] Instance exn_eq_dec : EqDecision exn.
Proof. solve_decision. Defined.

#[global] Instance verdict_eq_dec : EqDecision verdict.
Proof. solve_decision. Defined.

(** A verdict that lets the loop go on to the next record. *)
Definition quiet (v : verdict) : bool :=
  match v with
  | Raised _ => false
  | _ => true
  end.

(** End of the window that starts at [s] and lasts [d] minutes:
    [start_time + timedelta(minutes=d)] for a naive [start_time]. *)
Definition window_end (s d : Z) : exc Z :=
  let* delta := mk_timedelta (d * US_PER_MINUTE) in
  let* end_time := dt_add (Naive s) delta in
  ret (wall end_time).

Section Endpoints.

Variable fromisoformat : string -> option datetime.

(** [datetime.fromisoformat(v)]: [TypeError] unless [v] is a [str],
    [ValueError] when the string is not a timestamp. *)
Definition py_fromisoformat (v : json) : exc datetime :=
  match v with
  | JStr s =>
    match fromisoformat s with
    | Some d => ret d
    | None => raise ValueError
    end
  | _ => raise TypeError
  end.

(** Line 99: [apt.get("status") == "booked" and apt.get("patient_id")]. *)
Definition eligible (apt : dict) : bool :=
  py_eq_str (py_get apt "status") "booked" && truthy (py_get apt "patient_id").

(** Lines 103-110, the body of the [try]: [true] when the record is
    appended. The debug [print] of line 109 evaluates [apt['id']]. *)
Definition in_window (now : datetime) (apt : dict) : exc bool :=
  let* raw := py_getitem apt "start" in
  let* start_time := py_fromisoformat raw in
  let duration_minutes := py_get_default apt "slot_duration" (JInt 30) in
  let* delta := timedelta_minutes duration_minutes in
  let* end_time := dt_add start_time delta in
  let* after_start := dt_le start_time now in
  if after_start then
    let* before_end := dt_lt now end_time in
    if before_end then
      let* _ := py_getitem apt "id" in
      ret true
    else ret false
  else ret false.

(** Lines 98-114: the loop, with [active_appointments] as accumulator. *)
Fixpoint scan (now : datetime) (appointments active_appointments : list dict)
  : exc (list dict) :=
  match appointments with
  | [] => ret active_appointments
  | apt :: rest =>
    if eligible apt then
      match in_window now apt with
      | inr true => scan now rest (active_appointments ++ [apt])
      | inr false => scan now rest active_appointments
      | inl ValueError => scan now rest active_appointments
      | inl KeyError => scan now rest active_appointments
      | inl e => raise e
      end
    else scan now rest active_appointments
  end.

(** Lines 87-90: [(utc_now + est_offset).replace(tzinfo=None)]. *)
Definition normalized_now (utc_now : datetime) : exc datetime :=
  let* est_offset := timedelta_hours (-5) in
  let* shifted := dt_add utc_now est_offset in
  ret (replace_tzinfo_none shifted).

(** Lines 96-127 for a given [now]. *)
Definition active_at (now : datetime) (appointments : list dict) : exc dict :=
  let* active_appointments := scan now appointments [] in
  match active_appointments with
  | [] => ret ∅
  | _ :: _ =>
    match sort_by_start active_appointments with
    | [] => raise IndexError
    | result :: _ =>
      let* _ := py_getitem result "id" in
      ret result
    end
  end.

(** [get_active_appointment]: [utc_wall] is the reading of
    [datetime.now(timezone.utc)]; every exception becomes a 500. *)
Definition get_active_appointment (appointments : list dict) (utc_wall : Z)
  : response :=
  match (let* now := normalized_now (Aware utc_wall 0) in
         active_at now appointments) with
  | inr result => Http200 (Some result)
  | inl _ => Http500
  end.

(** Lines 143-147: the loop of [get_current_appointment]; nothing is
    caught here. *)
Fixpoint scan_upcoming (now : datetime) (patient_id : Z)
  (appointments upcoming : list dict) : exc (list dict) :=
  match appointments with
  | [] => ret upcoming
  | apt :: rest =>
    if py_eq_int (py_get apt "patient_id") patient_id
       && py_eq_str (py_get apt "status") "booked"
    then
      let* raw := py_getitem apt "start" in
      let* start_time := py_fromisoformat raw in
      let* later := dt_ge start_time now in
      if later then scan_upcoming now patient_id rest (upcoming ++ [apt])
      else scan_upcoming now patient_id rest upcoming
    else scan_upcoming now patient_id rest upcoming
  end.

(** [get_current_appointment]: [local_wall] is the reading of
    [datetime.now()], a naive datetime; an exception is an unhandled
    server error. *)
Definition get_current_appointment (appointments : list dict)
  (patient_id : Z) (local_wall : Z) : response :=
  match scan_upcoming (Naive local_wall) patient_id appointments [] with
  | inl _ => Http500
  | inr upcoming =>
    match upcoming with
    | [] => Http200 None
    | _ :: _ =>
      match sort_by_start upcoming with
      | [] => Http500
      | result :: _ => Http200 (Some result)
      end
    end
  end.

(** The outcome of one iteration of [scan], named. *)
Definition examine (now : datetime) (apt : dict) : verdict :=
  if eligible apt then
    match in_window now apt with
    | inr true => Active
    | inr false => Inactive
    | inl ValueError => Skipped ValueError
    | inl KeyError => Skipped KeyError
    | inl e => Raised e
    end
  else Discarded.

(** The wall-clock instant that [fromisoformat] reads from ["start"]. *)
Definition start_instant (apt : dict) : option Z :=
  match apt !! "start" with
  | Some (JStr str) =>
    match fromisoformat str with
    | Some d => Some (wall d)
    | None => None
    end
  | _ => None
  end.

(** The order of the [start] strings of [l] agrees with the order of the
    instants they denote, as it does for strings in one fixed-width ISO
    format. *)
Definition starts_ordered (l : list dict) : Prop :=
  ∀ a b ta tb,
    a ∈ l -> b ∈ l ->
    start_instant a = Some ta -> start_instant b = Some tb ->
    (start_key a ≤ start_key b)%string -> ta <= tb.

(** The records that [scan] appends. *)
Definition active_records (now : datetime) (appointments : list dict)
  : list dict :=
  filter (λ apt, examine now apt = Active) appointments.

(** A record of [patient_id] that the per-patient query considers. *)
Definition booked_for (patient_id : Z) (apt : dict) : bool :=
  py_eq_int (py_get apt "patient_id") patient_id
  && py_eq_str (py_get apt "status") "booked".

(** Lines 145-146 for one record: whether it is kept as upcoming. *)
Definition is_upcoming (now : datetime) (apt : dict) : exc bool :=
  let* raw := py_getitem apt "start" in
  let* start_time := py_fromisoformat raw in
  dt_ge start_time now.

(** The record is appended to [upcoming]. *)
Definition qualifies (now : datetime) (patient_id : Z) (apt : dict) : bool :=
  booked_for patient_id apt
  && match is_upcoming now apt with
     | inr b => b
     | inl _ => false
     end.

(** The record makes [scan_upcoming] raise. *)
Definition fails (now : datetime) (patient_id : Z) (apt : dict) : bool :=
  booked_for patient_id apt
  && match is_upcoming now apt with
     | inr _ => false
     | inl _ => true
     end.

End Endpoints.

(** ** Sample data

    Records with the five fields of the data model, and the instants used
    in the examples (microseconds since 0001-01-01T00:00:00). *)

Definition appointment (id : Z) (status : string)
  (patient_id start slot_duration : json) : dict :=
  {[ "id" := JInt id; "status" := JStr status; "patient_id" := patient_id;
     "start" := start; "slot_duration" := slot_duration ]}.

(** 2025-12-12T09:00:00, 09:15:00 and 09:30:00, wall clock. *)
Definition t_0900 : Z := 63901126800000000.
Definition t_0915 : Z := 63901127700000000.

(** 2025-12-12T14:15:00 UTC, which is 09:15:00 at UTC-5. *)
Definition utc_1415 : Z := 63901145700000000.

(** 2025-12-12T14:20:00 and 14:30:00 UTC: 09:20:00 and 09:30:00 at UTC-5. *)
Definition utc_1420 : Z := 63901146000000000.
Definition utc_1430 : Z := 63901146600000000.

(** 2025-12-13T14:15:00 UTC, a day later, and the same instant at UTC-5. *)
Definition utc_next_day : Z := 63901232100000000.
Definition t_next_day : Z := 63901214100000000.

(** Scenario A of the specification: booked, patient 7, 09:00, 30 minutes. *)
Definition apt_booked : dict :=
  appointment 1 "booked" (JInt 7) (JStr "2025-12-12T09:00:00") (JInt 30).

(** Scenario C: an available slot, with no patient and no duration. *)
Definition apt_available : dict :=
  {[ "id" := JInt 2; "status" := JStr "available";
     "start" := JStr "2025-12-12T09:00:00" ]}.

(** The booked record with [slot_duration] set to [null]. *)
Definition apt_null_duration : dict :=
  appointment 1 "booked" (JInt 7) (JStr "2025-12-12T09:00:00") JNull.

(** The booked record without the [slot_duration] key. *)
Definition apt_no_duration : dict :=
  {[ "id" := JInt 1; "status" := JStr "booked"; "patient_id" := JInt 7;
     "start" := JStr "2025-12-12T09:00:00" ]}.

(** A booked record whose [start] is [null], and a valid one for another
    patient. *)
Definition apt_null_start : dict :=
  appointment 1 "booked" (JInt 7) JNull (JInt 30).
Definition apt_other : dict :=
  appointment 2 "booked" (JInt 8) (JStr "2025-12-12T09:00:00") (JInt 30).

(** Scenario D: records 3 (09:00) and 4 (09:10), 30 minutes each. Then a
    record with the same start as record 3, and one at 09:10 written with a
    space as separator. *)
Definition apt_3 : dict :=
  appointment 3 "booked" (JInt 7) (JStr "2025-12-12T09:00:00") (JInt 30).
Definition apt_4 : dict :=
  appointment 4 "booked" (JInt 7) (JStr "2025-12-12T09:10:00") (JInt 30).
Definition apt_twin : dict :=
  appointment 8 "booked" (JInt 8) (JStr "2025-12-12T09:00:00") (JInt 30).
Definition apt_space : dict :=
  appointment 6 "booked" (JInt 7) (JStr "2025-12-12 09:10:00") (JInt 30).
Definition t_0910 : Z := 63901127400000000.

(** 2025-12-12T08:00:00, and a record of patient 7 whose [start] is not a
    timestamp. *)
Definition t_0800 : Z := 63901123200000000.
Definition apt_bad_start : dict :=
  appointment 9 "booked" (JInt 7) (JStr "not-a-date") (JInt 30).


(** A booked record whose patient has id 0. *)
Definition apt_patient_zero : dict :=
  appointment 5 "booked" (JInt 0) (JStr "2025-12-12T09:00:00") (JInt 30).

(** * The rest of [main.py]

    The patient lookup, the debug report and the text that the encounter
    summary builds for its prompt. *)

(** ** [get_patient]

    The handler raises a 404 itself; any other exception is unhandled and
    becomes a 500. *)

Inductive patient_response : Type :=
| Patient200 (patient : dict)
| Patient404
| Patient500.

(** [next((p for p in patients if p["id"] == patient_id), None)]: the
    generator is consumed up to the first match. *)
Fixpoint next_patient (patients : list dict) (patient_id : Z)
  : exc (option dict) :=
  match patients with
  | [] => ret None
  | p :: rest =>
    let* v := py_getitem p "id" in
    if py_eq_int v patient_id then ret (Some p)
    else next_patient rest patient_id
  end.

(** Lines 68-75. [if not patient] is true for [None] and for an empty
    [dict]. *)
Definition get_patient (patients : list dict) (patient_id : Z)
  : patient_response :=
  match next_patient patients patient_id with
  | inl _ => Patient500
  | inr None => Patient404
  | inr (Some patient) =>
    if decide (size patient = 0%nat) then Patient404 else Patient200 patient
  end.

(** A record that the lookup passes over: it has an id, which differs. *)
Definition other_id (patient_id : Z) (p : dict) : Prop :=
  ∃ v, p !! "id" = Some v ∧ py_eq_int v patient_id = false.

(** A record that the lookup stops at. *)
Definition has_id (patient_id : Z) (p : dict) : Prop :=
  ∃ v, p !! "id" = Some v ∧ py_eq_int v patient_id = true.

(** ** [debug_appointments]

    Lines 37-51. No operation of the body can raise on a list of objects, so
    the handler of line 50 is not reached. [isoformat] is
    [datetime.isoformat], a library function taken as a parameter. *)



(** ** The text of the encounter summary

    Lines 218-235 of [generate_encounter_summary]: the transcription text
    and the patient name that are placed in the prompt. The call of the
    language model that follows is outside the model. All exceptions of
    this endpoint reach the handler of line 275, which answers 500, so a
    raised exception is [None] here. *)

(** [d.get(k)] on an object nested in a JSON value; when the text repeats a
    key the last value wins, as in [json.loads]. *)
Fixpoint obj_get (fields : list (string * json)) (k : string) : option json :=
  match fields with
  | [] => None
  | (k', v) :: rest =>
    match obj_get rest k with
    | Some w => Some w
    | None => if String.eqb k' k then Some v else None
    end
  end.

Definition NL : string := String "010"%char EmptyString.

(** ["\n".join(lines)]. *)
Fixpoint join_lines (lines : list string) : string :=
  match lines with
  | [] => ""
  | l :: rest =>
    match rest with
    | [] => l
    | _ :: _ => l +:+ NL +:+ join_lines rest
    end
  end.

Section Summary.

(** [str(v)], as an f-string formats a value. *)
Variable py_str : json -> string.

(** [f"{seg.get('speaker', 'Unknown')}: {seg.get('text', '')}"]; only an
    object has [get]. *)
Definition segment_line (seg : json) : option string :=
  match seg with
  | JObj fields =>
    Some (py_str (default (JStr "Unknown") (obj_get fields "speaker"))
          +:+ ": "
          +:+ py_str (default (JStr "") (obj_get fields "text")))
  | _ => None
  end.

Fixpoint segment_lines (segments : list json) : option (list string) :=
  match segments with
  | [] => Some []
  | seg :: rest =>
    match segment_line seg with
    | None => None
    | Some l =>
      match segment_lines rest with
      | None => None
      | Some ls => Some (l :: ls)
      end
    end
  end.

(** The comprehension over [request.transcription.get("segments", [])]:
    a string yields its characters and an object its keys, which have no
    [get]; [null], booleans and numbers cannot be iterated. *)
Definition segments_text (segments : json) : option string :=
  match segments with
  | JArr items =>
    match segment_lines items with
    | Some ls => Some (join_lines ls)
    | None => None
    end
  | JStr s => if String.eqb s "" then Some "" else None
  | JObj fields => match fields with [] => Some "" | _ :: _ => None end
  | _ => None
  end.

(** Lines 218-230, as the text appears in the prompt. *)
Definition transcription_text (transcription : dict) : option string :=
  match transcription !! "segments" with
  | Some segments => segments_text segments
  | None =>
    match transcription !! "text" with
    | Some v => Some (py_str v)
    | None => Some ""
    end
  end.

(** Lines 233-235. *)
Definition patient_name (patients : list dict) (patient_id : Z)
  : option string :=
  match next_patient patients patient_id with
  | inl _ => None
  | inr None => Some "Patient"
  | inr (Some patient) =>
    if decide (size patient = 0%nat) then Some "Patient"
    else
      match patient !! "first_name", patient !! "last_name" with
      | Some first, Some last => Some (py_str first +:+ " " +:+ py_str last)
      | _, _ => None
      end
  end.

End Summary.

(** ** More sample data *)

Definition patient_1 : dict :=
  {[ "id" := JInt 1; "first_name" := JStr "Sarah";
     "last_name" := JStr "Johnson" ]}.
Definition patient_2 : dict :=
  {[ "id" := JInt 2; "first_name" := JStr "Michael";
     "last_name" := JStr "Chen" ]}.
Definition patient_no_id : dict :=
  {[ "first_name" := JStr "Emily"; "last_name" := JStr "Rodriguez" ]}.

(** An instance of [fromisoformat] that also reads the 25-character form
    with the offset [+00:00], as a timezone-aware datetime. *)
Definition fromisoformat_utc (s : string) : option datetime :=
  if Nat.eqb (String.length s) 25
     && String.eqb (String.substring 19 6 s) "+00:00"
  then
    match fromisoformat_fixed (String.substring 0 19 s) with
    | Some d => Some (Aware (wall d) 0)
    | None => None
    end
  else fromisoformat_fixed s.

(** A booked record of patient 7 whose start carries an offset. *)
Definition apt_aware : dict :=
  appointment 10 "booked" (JInt 7) (JStr "2025-12-12T09:00:00+00:00")
    (JInt 30).

(** A transcription with two segments and a [text]. *)
Definition transcription_two : dict :=
  {[ "segments" :=
       JArr [JObj [("speaker", JStr "A"); ("text", JStr "Hello")];
             JObj [("text", JStr "Hi")]];
     "text" := JStr "Hello Hi" ]}.

(** [str] on the JSON strings; the other values are not needed in the
    examples. *)
Definition str_of_string (v : json) : string :=
  match v with
  | JStr s => s
  | _ => ""
  end.

(** * [scripts/generate_data.py]

    The script reads and rewrites the two data files; the model takes the
    contents of a file as an argument, [None] when the file does not exist.
    [print] calls are dropped. The [while] loop of
    [generate_appointments_for_date] need not end, so it runs on fuel:
    [None] is a loop that is still running when the fuel is spent. *)

(** The ten records of [ADDITIONAL_PATIENTS]. *)
Definition patient_data (first_name last_name dob email phone gender : string)
  : dict :=
  {[ "first_name" := JStr first_name; "last_name" := JStr last_name;
     "dob" := JStr dob; "email" := JStr email; "phone" := JStr phone;
     "gender" := JStr gender ]}.

Definition ADDITIONAL_PATIENTS : list dict :=
  [ patient_data "Sarah" "Johnson" "1988-03-15" "sarah.johnson@example.com"
      "5553334444" "female";
    patient_data "Michael" "Chen" "1992-11-08" "michael.chen@example.com"
      "5556667777" "male";
    patient_data "Emily" "Rodriguez" "1987-06-20"
      "emily.rodriguez@example.com" "5558889999" "female";
    patient_data "David" "Kim" "1995-09-12" "david.kim@example.com"
      "5550001111" "male";
    patient_data "Jessica" "Martinez" "1991-04-25"
      "jessica.martinez@example.com" "5552223333" "female";
    patient_data "Robert" "Taylor" "1986-12-30" "robert.taylor@example.com"
      "5554445555" "male";
    patient_data "Amanda" "Anderson" "1994-07-18"
      "amanda.anderson@example.com" "5556668888" "female";
    patient_data "James" "Wilson" "1989-01-22" "james.wilson@example.com"
      "5557778888" "male";
    patient_data "Lisa" "Brown" "1993-05-14" "lisa.brown@example.com"
      "5559990000" "female";
    patient_data "Christopher" "Davis" "1990-08-07" "chris.davis@example.com"
      "5551112222" "male" ].

(** The number that an id stands for in [max] and in [+]. Any other value
    ends in a [TypeError], in the comparison of [max] or in the addition
    that follows it. *)
Definition id_number (v : json) : exc Z :=
  match v with
  | JInt z => ret z
  | JBool b => ret (if b then 1 else 0)
  | _ => raise TypeError
  end.

(** [max] over [a.get("id", 0)] for the records of [l], starting from
    [acc]. *)
Fixpoint max_id_from (acc : Z) (l : list dict) : exc Z :=
  match l with
  | [] => ret acc
  | a :: rest =>
    let* n := id_number (py_get_default a "id" (JInt 0)) in
    max_id_from (Z.max acc n) rest
  end.

(** [max(a.get("id", 0) for a in l)] for a list that is not empty. *)
Definition max_id (first : dict) (rest : list dict) : exc Z :=
  let* n := id_number (py_get_default first "id" (JInt 0)) in
  max_id_from n rest.

(** Lines 29-36: the first id to give out. *)
Definition next_appointment_id (existing : option (list dict)) : exc Z :=
  match existing with
  | None => ret 1
  | Some [] => ret 1
  | Some (first :: rest) =>
    let* m := max_id first rest in
    ret (m + 1)
  end.

(** The range of a C [int]: CPython's [datetime.replace] reads its
    arguments as C [int]s before it checks them. *)
Definition C_INT_MIN : Z := -2147483648.
Definition C_INT_MAX : Z := 2147483647.

(** [d.replace(hour=hour, minute=0, second=0)]: the date, the microsecond
    and the tzinfo stay. [OverflowError] when [hour] does not fit a C
    [int]; [ValueError] when it fits and is not in [0..23]. *)
Definition dt_replace_hour (d : datetime) (hour : Z) : exc datetime :=
  if (hour <? C_INT_MIN) || (C_INT_MAX <? hour) then raise OverflowError
  else if (0 <=? hour) && (hour <=? 23) then
    let us := wall d / US_PER_DAY * US_PER_DAY + hour * US_PER_HOUR
              + wall d mod 1000000 in
    ret (match d with
         | Naive _ => Naive us
         | Aware _ off => Aware us off
         end)
  else raise ValueError.

(** Lines 64-70 of [main]: the patients after the ten new ones are
    appended. In [{"id": ..., **patient_data}] the keys of [patient_data]
    come last and win. *)
Definition extend_patients (patients_file : option (list dict))
  : exc (list dict) :=
  let patients := default [] patients_file in
  let* max_id :=
    match patients with
    | [] => ret 0
    | first :: rest => max_id first rest
    end in
  ret (patients
       ++ imap (λ i data, data ∪ {[ "id" := JInt (max_id + Z.of_nat i + 1) ]})
            ADDITIONAL_PATIENTS).

(** Line 102: [[p["id"] for p in patients]]. *)
Fixpoint patient_ids_of (patients : list dict) : exc (list json) :=
  match patients with
  | [] => ret []
  | p :: rest =>
    let* v := py_getitem p "id" in
    let* vs := patient_ids_of rest in
    ret (v :: vs)
  end.

(** Lines 108-109: the two assignments that book a slot. *)
Definition book (pid : json) (apt : dict) : dict :=
  <["patient_id" := pid]> (<["status" := JStr "booked"]> apt).

(** How many of the [n] indices from [i] on are even. *)
Fixpoint evens (i n : nat) : nat :=
  match n with
  | O => O
  | S n' => ((if Nat.even i then 1 else 0) + evens (S i) n')%nat
  end.

(** Lines 106-110 and 113-117: one booking loop, from index [i] and with
    [booked_count] bookings made so far; it returns the records as they are
    after the loop and the new count. *)
Fixpoint book_slots (patient_ids : list json) (i booked_count : nat)
  (slots : list dict) : exc (list dict * nat) :=
  match slots with
  | [] => ret ([], booked_count)
  | apt :: rest =>
    if Nat.even i && negb (Nat.eqb (length patient_ids) 0) then
      match patient_ids !! (booked_count mod length patient_ids)%nat with
      | Some pid =>
        let* r := book_slots patient_ids (S i) (S booked_count) rest in
        ret (book pid apt :: r.1, r.2)
      | None => raise IndexError
      end
    else
      let* r := book_slots patient_ids (S i) booked_count rest in
      ret (apt :: r.1, r.2)
  end.

(** Lines 102-117 of [main]: the two booking loops, one after the other;
    the count of the first loop goes on in the second. The result holds
    the slots of the two days as they are after the loops, and the number
    of bookings. *)
Definition book_both_days (patients appointments_12_12 appointments_12_15
  : list dict) : exc (list dict * list dict * nat) :=
  let* patient_ids := patient_ids_of patients in
  let* r1 := book_slots patient_ids 0 0 appointments_12_12 in
  let* r2 := book_slots patient_ids 0 r1.2 appointments_12_15 in
  ret (r1.1, r2.1, r2.2).

Section Generator.

Variable fromisoformat : string -> option datetime.
Variable isoformat : datetime -> string.

(** The record that line 44 appends. *)
Definition new_slot (appointment_id : Z) (current_time : datetime)
  (slot_duration : Z) : dict :=
  appointment appointment_id "available" JNull
    (JStr (isoformat current_time)) (JInt slot_duration).

(** Lines 43-52: the [while] loop. *)
Fixpoint slots_loop (fuel : nat) (current_time end_time : datetime)
  (appointment_id slot_duration : Z) (appointments : list dict)
  : option (exc (list dict)) :=
  match fuel with
  | O => None
  | S fuel' =>
    match dt_lt current_time end_time with
    | inl e => Some (raise e)
    | inr false => Some (ret appointments)
    | inr true =>
      match (let* delta := mk_timedelta (slot_duration * US_PER_MINUTE) in
             dt_add current_time delta) with
      | inl e => Some (raise e)
      | inr next_time =>
        slots_loop fuel' next_time end_time (appointment_id + 1)
          slot_duration
          (appointments
           ++ [new_slot appointment_id current_time slot_duration])
      end
    end
  end.

(** Lines 26-54. [existing] is the content of the appointments file. *)
Definition generate_appointments_for_date (fuel : nat)
  (existing : option (list dict)) (date_str : string)
  (start_hour end_hour slot_duration : Z) : option (exc (list dict)) :=
  match (let* appointment_id := next_appointment_id existing in
         let* base_date :=
           py_fromisoformat fromisoformat (JStr (date_str +:+ "T00:00:00")) in
         let* current_time := dt_replace_hour base_date start_hour in
         let* end_time := dt_replace_hour base_date end_hour in
         ret (appointment_id, current_time, end_time)) with
  | inl e => Some (raise e)
  | inr (appointment_id, current_time, end_time) =>
    slots_loop fuel current_time end_time appointment_id slot_duration []
  end.


End Generator.

(** The start of slot [k] of a day that begins at [base]. *)
Definition slot_start (base start_hour slot_duration : Z) (k : nat) : Z :=
  base + start_hour * US_PER_HOUR + Z.of_nat k * (slot_duration * US_PER_MINUTE).

(** How many slots of [slot_duration] minutes begin before [end_hour]. *)
Definition slot_count (start_hour end_hour slot_duration : Z) : nat :=
  Z.to_nat (((end_hour - start_hour) * 60 + slot_duration - 1) / slot_duration).

(** ** An instance of [datetime.isoformat]

    The calendar arithmetic follows [datetime.py] ([_ord2ymd],
    [_format_time], [_format_offset]). *)

Definition digit_char (d : Z) : ascii := ascii_of_N (Z.to_N (48 + d)).

Definition pad2 (n : Z) : string :=
  String (digit_char (n / 10 mod 10)) (String (digit_char (n mod 10)) "").

Definition pad4 (n : Z) : string := pad2 (n / 100) +:+ pad2 (n mod 100).

Definition pad6 (n : Z) : string := pad2 (n / 10000) +:+ pad4 (n mod 10000).

Definition DAYS_IN_MONTH : list Z :=
  [31; 28; 31; 30; 31; 30; 31; 31; 30; 31; 30; 31].

Definition ord2ymd (ordinal : Z) : Z * Z * Z :=
  let n := ordinal - 1 in
  let n400 := n / 146097 in
  let n := n mod 146097 in
  let n100 := n / 36524 in
  let n := n mod 36524 in
  let n4 := n / 1461 in
  let n := n mod 1461 in
  let n1 := n / 365 in
  let n := n mod 365 in
  let year := n400 * 400 + 1 + n100 * 100 + n4 * 4 + n1 in
  if (n1 =? 4) || (n100 =? 4) then (year - 1, 12, 31)
  else
    let leapyear := (n1 =? 3) && (negb (n4 =? 24) || (n100 =? 3)) in
    let month := (n + 50) / 32 in
    let preceding :=
      nth (Z.to_nat (month - 1)) DAYS_BEFORE_MONTH 0
      + (if (2 <? month) && leapyear then 1 else 0) in
    if n <? preceding then
      let month' := month - 1 in
      let preceding' :=
        preceding
        - (nth (Z.to_nat (month' - 1)) DAYS_IN_MONTH 0
           + (if (month' =? 2) && leapyear then 1 else 0)) in
      (year, month', n - preceding' + 1)
    else (year, month, n - preceding + 1).

Definition format_offset (off : Z) : string :=
  let sign := if off <? 0 then "-" else "+" in
  let a := Z.abs off in
  let hh := a / US_PER_HOUR in
  let mm := a mod US_PER_HOUR / US_PER_MINUTE in
  let ss := a mod US_PER_MINUTE / 1000000 in
  let us := a mod 1000000 in
  sign +:+ pad2 hh +:+ ":" +:+ pad2 mm
  +:+ (if (ss =? 0) && (us =? 0) then ""
       else ":" +:+ pad2 ss
            +:+ (if us =? 0 then "" else "." +:+ pad6 us)).

Definition isoformat_py (d : datetime) : string :=
  let w := wall d in
  let '(y, m, dd) := ord2ymd (w / US_PER_DAY + 1) in
  let t := w mod US_PER_DAY in
  let us := t mod 1000000 in
  pad4 y +:+ "-" +:+ pad2 m +:+ "-" +:+ pad2 dd +:+ "T"
  +:+ pad2 (t / US_PER_HOUR) +:+ ":"
  +:+ pad2 (t mod US_PER_HOUR / US_PER_MINUTE) +:+ ":"
  +:+ pad2 (t mod US_PER_MINUTE / 1000000)
  +:+ (if us =? 0 then "" else "." +:+ pad6 us)
  +:+ match d with
      | Naive _ => ""
      | Aware _ off => format_offset off
      end.

(** Midnight of 2025-12-12 and of 2025-12-15. *)
Definition day_1212 : Z := 63901094400000000.

(** * Properties *)

(** ** Order on strings *)

Lemma ltb_true_le (s t : string) : String.ltb s t = true -> (s ≤ t)%string.
Proof.
  unfold String.ltb, String.le, String.leb.
  destruct (String.compare s t); simpl; intros H; try discriminate; exact I.
Qed.

Lemma ltb_false_le (s t : string) : String.ltb s t = false -> (t ≤ s)%string.
Proof.
  unfold String.ltb, String.le, String.leb.
  rewrite (String.compare_antisym s t).
  destruct (String.compare t s); simpl; intros H; try discriminate; exact I.
Qed.

Lemma ltb_true_not_le (s t : string) : String.ltb s t = true -> ¬ (t ≤ s)%string.
Proof.
  unfold String.ltb, String.le, String.leb.
  rewrite (String.compare_antisym s t).
  destruct (String.compare t s); simpl; intros H; try discriminate.
  intros [].
Qed.

Lemma ltb_irrefl (s : string) : String.ltb s s = false.
Proof.
  destruct (String.ltb s s) eqn:E; [|reflexivity].
  exfalso. apply (ltb_true_not_le _ _ E). reflexivity.
Qed.

(** ** The sort and its first element *)

Lemma insert_by_start_perm (x : dict) (l : list dict) :
  insert_by_start x l ≡ₚ x :: l.
Proof.
  induction l as [|y l IH]; simpl; [reflexivity|].
  destruct (String.ltb (start_key y) (start_key x)); [|reflexivity].
  rewrite IH. apply Permutation_swap.
Qed.

Lemma sort_by_start_perm (l : list dict) : sort_by_start l ≡ₚ l.
Proof.
  induction l as [|x l IH]; simpl; [reflexivity|].
  rewrite insert_by_start_perm. by rewrite IH.
Qed.

Lemma head_insert_by_start (x : dict) (l : list dict) :
  head (insert_by_start x l) =
  Some (match head l with
        | Some y => if String.ltb (start_key y) (start_key x) then y else x
        | None => x
        end).
Proof.
  destruct l as [|y l]; simpl; [reflexivity|].
  by destruct (String.ltb (start_key y) (start_key x)).
Qed.

(** [sorted(l)[0]] is the leftmost record of [l] with the smallest key. *)
Lemma head_sort_by_start (l : list dict) :
  head (sort_by_start l) = first_min_start l.
Proof.
  induction l as [|x l IH]; simpl; [reflexivity|].
  rewrite head_insert_by_start, IH.
  destruct (first_min_start l) as [m|]; [|done].
  by destruct (String.ltb (start_key m) (start_key x)).
Qed.

(** The sorted list is ordered, and records with equal keys keep their
    input order: this is what [list.sort] guarantees, and it determines the
    sorted list. *)
Lemma insert_by_start_sorted (x : dict) (l : list dict) :
  Sorted (λ a b, (start_key a ≤ start_key b)%string) l ->
  Sorted (λ a b, (start_key a ≤ start_key b)%string) (insert_by_start x l).
Proof.
  induction l as [|y l IH]; simpl; intros Hs.
  - by repeat constructor.
  - apply Sorted_inv in Hs as [Hs Hhd].
    destruct (String.ltb (start_key y) (start_key x)) eqn:Hlt.
    + constructor; [by apply IH|].
      destruct l as [|z l]; simpl.
      * constructor. by apply ltb_true_le.
      * destruct (String.ltb (start_key z) (start_key x));
          constructor; [by inversion Hhd|by apply ltb_true_le].
    + constructor; [by constructor|].
      constructor. by apply ltb_false_le.
Qed.

Lemma sort_by_start_sorted (l : list dict) :
  Sorted (λ a b, (start_key a ≤ start_key b)%string) (sort_by_start l).
Proof.
  induction l as [|x l IH]; simpl; [constructor|].
  by apply insert_by_start_sorted.
Qed.

Lemma insert_by_start_stable (k : string) (x : dict) (l : list dict) :
  filter (λ a, start_key a = k) (insert_by_start x l)
  = filter (λ a, start_key a = k) (x :: l).
Proof.
  induction l as [|y l IH]; simpl; [done|].
  destruct (String.ltb (start_key y) (start_key x)) eqn:Hlt; [|done].
  rewrite (filter_cons _ y), IH, !(filter_cons _ x), (filter_cons _ y).
  destruct (decide (start_key x = k)) as [Hx|Hx]; [|done].
  destruct (decide (start_key y = k)) as [Hy|Hy]; [|done].
  rewrite <- Hx in Hy. rewrite Hy in Hlt.
  by rewrite ltb_irrefl in Hlt.
Qed.

Lemma sort_by_start_stable (k : string) (l : list dict) :
  filter (λ a, start_key a = k) (sort_by_start l)
  = filter (λ a, start_key a = k) l.
Proof.
  induction l as [|x l IH]; simpl; [done|].
  by rewrite insert_by_start_stable, !filter_cons, IH.
Qed.

Lemma first_min_start_None (l : list dict) :
  first_min_start l = None -> l = [].
Proof.
  destruct l as [|x l]; simpl; [done|].
  destruct (first_min_start l); [|done].
  by destruct (String.ltb _ _).
Qed.

(** The chosen record splits the list: strictly larger keys before it, keys
    at least as large after it. *)
Lemma first_min_start_split (l : list dict) (m : dict) :
  first_min_start l = Some m ->
  ∃ l1 l2, l = l1 ++ m :: l2
    ∧ Forall (λ y, String.ltb (start_key m) (start_key y) = true) l1
    ∧ Forall (λ y, (start_key m ≤ start_key y)%string) l2.
Proof.
  revert m. induction l as [|x l IH]; intros m; simpl; [done|].
  destruct (first_min_start l) as [m'|] eqn:Hm'.
  - destruct (IH m' eq_refl) as (l1 & l2 & -> & H1 & H2).
    destruct (String.ltb (start_key m') (start_key x)) eqn:Hlt;
      intros [= <-].
    + exists (x :: l1), l2. split_and!; [done| |done].
      by constructor.
    + exists [], (l1 ++ m' :: l2). split_and!; [done|constructor|].
      assert (start_key x ≤ start_key m')%string as Hxm
        by by apply ltb_false_le.
      apply Forall_app. split; [|constructor].
      * eapply Forall_impl; [exact H1|]. intros y Hy; simpl in Hy.
        etrans; [exact Hxm|]. by apply ltb_true_le.
      * done.
      * eapply Forall_impl; [exact H2|]. intros y Hy; simpl in Hy.
        by etrans.
  - apply first_min_start_None in Hm' as ->. intros [= <-].
    exists [], []. by split_and!.
Qed.

Lemma first_min_start_elem (l : list dict) (m : dict) :
  first_min_start l = Some m -> m ∈ l.
Proof.
  intros (l1 & l2 & -> & _)%first_min_start_split. set_solver.
Qed.

Lemma first_min_start_le (l : list dict) (m y : dict) :
  first_min_start l = Some m -> y ∈ l -> (start_key m ≤ start_key y)%string.
Proof.
  intros (l1 & l2 & -> & H1 & H2)%first_min_start_split Hy.
  rewrite Forall_forall in H1. rewrite Forall_forall in H2.
  apply elem_of_app in Hy as [Hy|Hy]; [by apply ltb_true_le, H1|].
  apply elem_of_cons in Hy as [->|Hy]; [reflexivity|by apply H2].
Qed.

Lemma first_min_start_is_Some (l : list dict) :
  l ≠ [] -> is_Some (first_min_start l).
Proof.
  intros Hl. destruct (first_min_start l) eqn:E; [by eexists|].
  by apply first_min_start_None in E.
Qed.

Lemma NoDup_fmap_elem_inj {A B : Type} (f : A -> B) (l : list A) (x y : A) :
  NoDup (f <$> l) -> x ∈ l -> y ∈ l -> f x = f y -> x = y.
Proof.
  induction l as [|a l IH]; simpl; intros Hnd Hx Hy Hf; [by inversion Hx|].
  apply NoDup_cons in Hnd as [Ha Hnd].
  apply elem_of_cons in Hx as [->|Hx]; apply elem_of_cons in Hy as [->|Hy].
  - done.
  - exfalso. apply Ha. rewrite Hf. by apply list_elem_of_fmap_2.
  - exfalso. apply Ha. rewrite <- Hf. by apply list_elem_of_fmap_2.
  - by apply IH.
Qed.

(** With pairwise distinct keys the choice does not depend on the order of
    the list. *)
Lemma first_min_start_perm (l l' : list dict) :
  NoDup (start_key <$> l) -> l ≡ₚ l' ->
  first_min_start l = first_min_start l'.
Proof.
  intros Hnd Hp.
  destruct (first_min_start l) as [m|] eqn:Hm.
  - destruct (first_min_start l') as [m'|] eqn:Hm'.
    + f_equal.
      assert (m ∈ l') as Hin by (rewrite <- Hp; by eapply first_min_start_elem).
      assert (m' ∈ l) as Hin' by (rewrite Hp; by eapply first_min_start_elem).
      apply (NoDup_fmap_elem_inj start_key l); [done| |done|].
      { by eapply first_min_start_elem. }
      apply (anti_symm String.le).
      * by eapply first_min_start_le.
      * by eapply first_min_start_le.
    + apply first_min_start_None in Hm'. subst l'.
      symmetry in Hp. apply Permutation_nil in Hp. subst l. discriminate.
  - apply first_min_start_None in Hm. subst l.
    apply Permutation_nil in Hp. by subst l'.
Qed.

(** ** The loop of the active-appointment resolver *)

Section ScanFacts.

Variable f : string -> option datetime.

Lemma scan_cons (now : datetime) (apt : dict) (rest acc : list dict) :
  scan f now (apt :: rest) acc =
  match examine f now apt with
  | Active => scan f now rest (acc ++ [apt])
  | Raised e => raise e
  | _ => scan f now rest acc
  end.
Proof.
  unfold examine. simpl.
  destruct (eligible apt); [|reflexivity].
  destruct (in_window f now apt) as [[]|[]]; reflexivity.
Qed.

Lemma active_records_cons (now : datetime) (apt : dict) (rest : list dict) :
  active_records f now (apt :: rest) =
  if decide (examine f now apt = Active) then apt :: active_records f now rest
  else active_records f now rest.
Proof. unfold active_records. by rewrite filter_cons. Qed.

(** When no record raises, the loop collects the active records, in the
    order of the input. *)
Lemma scan_quiet (now : datetime) (appointments acc : list dict) :
  Forall (λ apt, quiet (examine f now apt) = true) appointments ->
  scan f now appointments acc = ret (acc ++ active_records f now appointments).
Proof.
  revert acc. induction appointments as [|apt rest IH]; intros acc Hq.
  - simpl. by rewrite app_nil_r.
  - apply Forall_cons in Hq as [Hq Hrest].
    rewrite scan_cons, active_records_cons.
    destruct (examine f now apt) eqn:E; simpl in Hq; try discriminate;
      rewrite IH by done; case_decide; try done.
    by rewrite <- app_assoc.
Qed.

(** When some record raises, so does the loop. *)
Lemma scan_raised (now : datetime) (appointments acc : list dict) :
  Exists (λ apt, quiet (examine f now apt) = false) appointments ->
  ∃ e, scan f now appointments acc = raise e.
Proof.
  revert acc. induction appointments as [|apt rest IH]; intros acc Hex.
  - by apply Exists_nil in Hex.
  - rewrite scan_cons.
    destruct (examine f now apt) eqn:E; try (by eexists);
      apply Exists_cons in Hex as [Hex|Hex];
      try (rewrite E in Hex; discriminate); by apply IH.
Qed.

Lemma quiet_dec_all (now : datetime) (appointments : list dict) :
  Forall (λ apt, quiet (examine f now apt) = true) appointments
  ∨ Exists (λ apt, quiet (examine f now apt) = false) appointments.
Proof.
  destruct (Forall_Exists_dec
              (λ apt, quiet (examine f now apt) = true)
              (λ apt, quiet (examine f now apt) = false)
              (λ apt, match quiet (examine f now apt) as b
                        return {b = true} + {b = false} with
                      | true => left eq_refl
                      | false => right eq_refl
                      end) appointments); auto.
Qed.

Lemma scan_ret_inv (now : datetime) (appointments acc l : list dict) :
  scan f now appointments acc = ret l ->
  Forall (λ apt, quiet (examine f now apt) = true) appointments
  ∧ l = acc ++ active_records f now appointments.
Proof.
  intros Hs. destruct (quiet_dec_all now appointments) as [Hq|Hex].
  - split; [done|]. rewrite scan_quiet in Hs by done. by injection Hs.
  - destruct (scan_raised now appointments acc Hex) as [e He].
    rewrite He in Hs. discriminate.
Qed.

(** What an active record looks like. *)
Lemma examine_Active_inv (now : datetime) (apt : dict) :
  examine f now apt = Active ->
  eligible apt = true
  ∧ is_Some (apt !! "id")
  ∧ ∃ str d, apt !! "start" = Some (JStr str) ∧ f str = Some d.
Proof.
  unfold examine.
  destruct (eligible apt); [|discriminate].
  destruct (in_window f now apt) as [[]|[]] eqn:Hw; try discriminate.
  intros _. split; [done|]. revert Hw.
  unfold in_window, py_getitem, py_fromisoformat.
  destruct (apt !! "start") as [[| | |str| |]|]; simpl; try discriminate.
  destruct (f str) as [d|] eqn:Hf; simpl; [|discriminate].
  destruct (timedelta_minutes _); simpl; [discriminate|].
  destruct (dt_add d _); simpl; [discriminate|].
  destruct (dt_le d now) as [|[]]; simpl; try discriminate.
  destruct (dt_lt now _) as [|[]]; simpl; try discriminate.
  destruct (apt !! "id"); simpl; [|discriminate].
  intros _. split; [by eexists|]. by exists str, d.
Qed.

Lemma active_records_elem (now : datetime) (appointments : list dict)
  (apt : dict) :
  apt ∈ active_records f now appointments ↔
  examine f now apt = Active ∧ apt ∈ appointments.
Proof. unfold active_records. by rewrite list_elem_of_filter. Qed.

(** Every record that reaches the sort has a string under ["start"]. *)
Lemma scan_start_is_str (now : datetime) (appointments l : list dict) :
  scan f now appointments [] = ret l ->
  Forall (λ apt, ∃ str, apt !! "start" = Some (JStr str)) l.
Proof.
  intros [_ ->]%scan_ret_inv. simpl.
  apply Forall_forall. intros apt [Ha _]%active_records_elem.
  apply examine_Active_inv in Ha as (_ & _ & str & d & Hs & _).
  by exists str.
Qed.

(** The body of the endpoint once [now] is known. *)
Lemma active_at_quiet (now : datetime) (appointments : list dict) :
  Forall (λ apt, quiet (examine f now apt) = true) appointments ->
  active_at f now appointments =
  ret (match first_min_start (active_records f now appointments) with
       | Some result => result
       | None => ∅
       end).
Proof.
  intros Hq. unfold active_at.
  rewrite (scan_quiet now appointments [] Hq). simpl.
  destruct (active_records f now appointments) as [|a l] eqn:Hact; [done|].
  pose proof (head_sort_by_start (a :: l)) as Hhead.
  destruct (first_min_start (a :: l)) as [m|] eqn:Hm.
  - destruct (sort_by_start (a :: l)) as [|r l'] eqn:Hsort;
      [discriminate|].
    simpl in Hhead. injection Hhead as ->.
    assert (m ∈ active_records f now appointments) as Hin.
    { rewrite Hact. by apply first_min_start_elem. }
    apply active_records_elem in Hin as [Ha _].
    apply examine_Active_inv in Ha as (_ & [v Hid] & _).
    unfold py_getitem. by rewrite Hid.
  - by apply first_min_start_None in Hm.
Qed.

Lemma active_at_raised (now : datetime) (appointments : list dict) :
  Exists (λ apt, quiet (examine f now apt) = false) appointments ->
  ∃ e, active_at f now appointments = raise e.
Proof.
  intros Hex. unfold active_at.
  destruct (scan_raised now appointments [] Hex) as [e ->].
  by exists e.
Qed.

End ScanFacts.

(** ** The active-appointment endpoint *)

Section ActiveFacts.

Variable f : string -> option datetime.

Lemma normalized_now_utc (w : Z) :
  5 * US_PER_HOUR <= w < DATETIME_END ->
  normalized_now (Aware w 0) = ret (Naive (w - 5 * US_PER_HOUR)).
Proof.
  intros Hw. unfold normalized_now, timedelta_hours, mk_timedelta.
  change (-5 * US_PER_HOUR) with (-18000000000).
  change (-18000000000 / US_PER_DAY) with (-1). simpl.
  unfold dt_add. simpl.
  replace (w + -18000000000) with (w - 5 * US_PER_HOUR)
    by (unfold US_PER_HOUR; lia).
  assert ((0 <=? w - 5 * US_PER_HOUR) = true) as ->
    by (apply Z.leb_le; lia).
  assert ((w - 5 * US_PER_HOUR <? DATETIME_END) = true) as ->
    by (apply Z.ltb_lt; unfold US_PER_HOUR in *; lia).
  reflexivity.
Qed.

Lemma normalized_now_inv (w : Z) (now : datetime) :
  normalized_now (Aware w 0) = ret now ->
  now = Naive (w - 5 * US_PER_HOUR).
Proof.
  unfold normalized_now, timedelta_hours, mk_timedelta.
  change (-5 * US_PER_HOUR) with (-18000000000).
  change (-18000000000 / US_PER_DAY) with (-1). simpl.
  unfold dt_add. simpl.
  destruct (_ && _); simpl; [|discriminate].
  intros [= <-]. unfold replace_tzinfo_none. simpl.
  f_equal; unfold US_PER_HOUR; lia.
Qed.

Lemma get_active_appointment_at (appointments : list dict) (w : Z)
  (now : datetime) :
  normalized_now (Aware w 0) = ret now ->
  get_active_appointment f appointments w =
  match active_at f now appointments with
  | inr result => Http200 (Some result)
  | inl _ => Http500
  end.
Proof. intros Hn. unfold get_active_appointment. by rewrite Hn. Qed.

Lemma get_active_appointment_overflow (appointments : list dict) (w : Z)
  (e : exn) :
  normalized_now (Aware w 0) = raise e ->
  get_active_appointment f appointments w = Http500.
Proof. intros Hn. unfold get_active_appointment. by rewrite Hn. Qed.

(** The answer of the endpoint when no record raises. *)
Lemma get_active_appointment_quiet (appointments : list dict) (w : Z)
  (now : datetime) :
  normalized_now (Aware w 0) = ret now ->
  Forall (λ apt, quiet (examine f now apt) = true) appointments ->
  get_active_appointment f appointments w =
  Http200 (Some (match first_min_start (active_records f now appointments) with
                 | Some result => result
                 | None => ∅
                 end)).
Proof.
  intros Hn Hq. rewrite (get_active_appointment_at _ _ _ Hn).
  by rewrite active_at_quiet.
Qed.

(** The answer of the endpoint when some record raises. *)
Lemma get_active_appointment_raised (appointments : list dict) (w : Z)
  (now : datetime) :
  normalized_now (Aware w 0) = ret now ->
  Exists (λ apt, quiet (examine f now apt) = false) appointments ->
  get_active_appointment f appointments w = Http500.
Proof.
  intros Hn Hex. rewrite (get_active_appointment_at _ _ _ Hn).
  by destruct (active_at_raised f now appointments Hex) as [e ->].
Qed.

(** The three shapes of an answer. *)
Lemma get_active_appointment_cases (appointments : list dict) (w : Z) :
  get_active_appointment f appointments w = Http500
  ∨ get_active_appointment f appointments w = Http200 (Some ∅)
  ∨ ∃ now apt,
      normalized_now (Aware w 0) = ret now
      ∧ apt ∈ appointments
      ∧ examine f now apt = Active
      ∧ get_active_appointment f appointments w = Http200 (Some apt).
Proof.
  destruct (normalized_now (Aware w 0)) as [e|now] eqn:Hn.
  { left. by eapply get_active_appointment_overflow. }
  destruct (quiet_dec_all f now appointments) as [Hq|Hex].
  - rewrite (get_active_appointment_quiet _ _ _ Hn Hq).
    destruct (first_min_start _) as [m|] eqn:Hm; [|by right; left].
    right; right. exists now, m.
    apply first_min_start_elem, active_records_elem in Hm as [Ha Hin].
    done.
  - left. by eapply get_active_appointment_raised.
Qed.

(** The part of C1 that the code keeps. The endpoint answers with at most
    one record: its answer is a failure, the empty object, or one record
    of the input that is active at the normalized instant. When every
    record is discarded, skipped or inactive, so that none matches and
    none raises an exception that the inner handler lets through, the
    answer is the empty object and not a failure. *)
Theorem active_appointment_at_most_one (appointments : list dict) (w : Z) :
  (get_active_appointment f appointments w = Http500
   ∨ get_active_appointment f appointments w = Http200 (Some ∅)
   ∨ ∃ now apt,
       normalized_now (Aware w 0) = ret now
       ∧ apt ∈ appointments
       ∧ examine f now apt = Active
       ∧ get_active_appointment f appointments w = Http200 (Some apt))
  ∧ (∀ now,
       normalized_now (Aware w 0) = ret now ->
       Forall (λ apt, quiet (examine f now apt) = true
                      ∧ examine f now apt ≠ Active) appointments ->
       get_active_appointment f appointments w = Http200 (Some ∅)).
Proof.
  split; [apply get_active_appointment_cases|].
  - intros now Hn Hall.
    rewrite (get_active_appointment_quiet _ _ _ Hn).
    + assert (active_records f now appointments = []) as ->; [|done].
      unfold active_records. induction Hall as [|apt l [_ Hna] _ IH];
        [done|].
      by rewrite filter_cons_False.
    + eapply Forall_impl; [exact Hall|]. by intros apt [Hq _].
Qed.

End ActiveFacts.

(** Scenario C: one available slot, 09:15 local time. *)
Lemma active_appointment_at_most_one_witness :
  normalized_now (Aware utc_1415 0) = ret (Naive t_0915)
  ∧ Forall (λ apt, quiet (examine fromisoformat_fixed (Naive t_0915) apt) = true
                   ∧ examine fromisoformat_fixed (Naive t_0915) apt ≠ Active)
      [apt_available]
  ∧ get_active_appointment fromisoformat_fixed [apt_available] utc_1415
    = Http200 (Some ∅).
Proof.
  assert (normalized_now (Aware utc_1415 0) = ret (Naive t_0915)) as Hn
    by (vm_compute; reflexivity).
  assert (Forall (λ apt,
            quiet (examine fromisoformat_fixed (Naive t_0915) apt) = true
            ∧ examine fromisoformat_fixed (Naive t_0915) apt ≠ Active)
            [apt_available]) as Hall.
  { constructor; [|constructor].
    split; vm_compute; [reflexivity|discriminate]. }
  split; [exact Hn|]. split; [exact Hall|].
  exact (proj2 (active_appointment_at_most_one fromisoformat_fixed
                  [apt_available] utc_1415) (Naive t_0915) Hn Hall).
Defined.

(** C1, the failing input. The only record has [slot_duration: null] and
    the instant is a day after its start, so no record matches and the
    specified answer is the empty object, as it is for the same record
    with [slot_duration] 30. But [timedelta(minutes=None)] raises
    [TypeError], which the handler that is to skip invalid entries does
    not catch, and the answer is a failure. *)
Theorem active_appointment_error_without_match :
  normalized_now (Aware utc_next_day 0) = ret (Naive t_next_day)
  ∧ Forall (λ apt, examine fromisoformat_fixed (Naive t_next_day) apt ≠ Active)
      [apt_null_duration]
  ∧ examine fromisoformat_fixed (Naive t_next_day) apt_null_duration
    = Raised TypeError
  ∧ get_active_appointment fromisoformat_fixed
      [<["slot_duration" := JInt 30]> apt_null_duration] utc_next_day
    = Http200 (Some ∅)
  ∧ get_active_appointment fromisoformat_fixed [apt_null_duration] utc_next_day
    = Http500.
Proof.
  split; [vm_compute; reflexivity|].
  split; [|split_and!; vm_compute; reflexivity].
  constructor; [|constructor]. vm_compute. discriminate.
Qed.

(** ** The window test *)

Lemma window_end_inv (s d e : Z) :
  window_end s d = ret e -> e = s + d * US_PER_MINUTE.
Proof.
  unfold window_end, mk_timedelta, dt_add.
  destruct (_ && _); simpl; [|discriminate].
  destruct (_ && _); simpl; [|discriminate].
  by intros [= <-].
Qed.

(** Inside the range of [datetime], the end of the window is the sum. *)
Lemma window_end_in_range (s d : Z) :
  0 <= s < DATETIME_END ->
  0 <= s + d * US_PER_MINUTE < DATETIME_END ->
  window_end s d = ret (s + d * US_PER_MINUTE).
Proof.
  intros Hs He. unfold window_end, mk_timedelta, dt_add.
  assert (((-999999999 <=? d * US_PER_MINUTE / US_PER_DAY)
           && (d * US_PER_MINUTE / US_PER_DAY <=? 999999999)) = true) as ->.
  { pose proof (Z.div_mod (d * US_PER_MINUTE) US_PER_DAY) as Hdm.
    pose proof (Z.mod_pos_bound (d * US_PER_MINUTE) US_PER_DAY) as Hmod.
    unfold DATETIME_END, MAXORDINAL, US_PER_DAY in *.
    apply andb_true_iff. split; apply Z.leb_le; lia. }
  simpl.
  assert (((0 <=? s + d * US_PER_MINUTE)
           && (s + d * US_PER_MINUTE <? DATETIME_END)) = true) as ->.
  { apply andb_true_iff. split; [apply Z.leb_le|apply Z.ltb_lt]; lia. }
  reflexivity.
Qed.

Section WindowFacts.

Variable f : string -> option datetime.

(** The [try] body for a record with an id, a naive start and an integer
    duration. *)
Lemma in_window_naive (apt : dict) (str : string) (s d n : Z) :
  is_Some (apt !! "id") ->
  apt !! "start" = Some (JStr str) ->
  f str = Some (Naive s) ->
  py_get_default apt "slot_duration" (JInt 30) = JInt d ->
  in_window f (Naive n) apt =
  (let* e := window_end s d in ret ((s <=? n) && (n <? e))).
Proof.
  intros [v Hid] Hstart Hparse Hdur.
  unfold in_window, py_getitem, py_fromisoformat, window_end.
  rewrite Hstart. simpl. rewrite Hparse. simpl. rewrite Hdur. simpl.
  destruct (mk_timedelta (d * US_PER_MINUTE)) as [e|delta]; simpl; [done|].
  unfold dt_add. simpl.
  destruct (_ && _); simpl; [|done].
  destruct (s <=? n); simpl; [|done].
  destruct (n <? s + delta); simpl; [|done].
  by rewrite Hid.
Qed.

(** When such a record is active. *)
Lemma examine_Active_iff (apt : dict) (str : string) (s d n : Z) :
  eligible apt = true ->
  is_Some (apt !! "id") ->
  apt !! "start" = Some (JStr str) ->
  f str = Some (Naive s) ->
  py_get_default apt "slot_duration" (JInt 30) = JInt d ->
  examine f (Naive n) apt = Active ↔
  window_end s d = ret (s + d * US_PER_MINUTE)
  ∧ s <= n < s + d * US_PER_MINUTE.
Proof.
  intros Hel Hid Hstart Hparse Hdur. unfold examine. rewrite Hel.
  rewrite (in_window_naive apt str s d n Hid Hstart Hparse Hdur).
  destruct (window_end s d) as [e|e] eqn:Hend; simpl.
  - split; [by destruct e|]. intros [? _]. discriminate.
  - apply window_end_inv in Hend as ->.
    destruct (Z.leb_spec s n), (Z.ltb_spec n (s + d * US_PER_MINUTE));
      simpl; split; try done; try (intros [_ ?]; lia).
Qed.

(** A record without an ["id"] key is never active: the debug [print] of
    line 109 raises [KeyError], which the handler catches. *)
Lemma no_id_never_active (now : datetime) (apt : dict) :
  apt !! "id" = None -> examine f now apt ≠ Active.
Proof.
  intros Hid Ha. apply examine_Active_inv in Ha as (_ & [v Hv] & _).
  congruence.
Qed.


(** C3 (as amended). A record passes the filter exactly when its status
    is the string ["booked"] and its [patient_id] is truthy; the falsy
    values are: key absent, [null], [false], [0], the empty string, array
    and object. A record that fails the filter is discarded, and the
    endpoint never answers with it. *)
Theorem eligible_iff_booked_and_truthy (apt : dict) (now : datetime)
  (appointments : list dict) (w : Z) :
  (eligible apt = true ↔
     apt !! "status" = Some (JStr "booked")
     ∧ truthy (py_get apt "patient_id") = true)
  ∧ (truthy (py_get apt "patient_id") = false ↔
     apt !! "patient_id" = None
     ∨ ∃ v, apt !! "patient_id" = Some v
            ∧ v ∈ [JNull; JBool false; JInt 0; JStr ""; JArr []; JObj []])
  ∧ (examine f now apt = Discarded ↔ eligible apt = false)
  ∧ (get_active_appointment f appointments w = Http200 (Some apt) ->
     apt = ∅ ∨ eligible apt = true).
Proof.
  split_and!.
  - unfold eligible, py_get, py_eq_str.
    destruct (apt !! "status") as [[| | |st| |]|]; simpl;
      try (split; [discriminate|by intros [? _]]).
    destruct (String.eqb_spec st "booked") as [->|Hne]; simpl.
    + by split; [intros ?|intros [_ ?]].
    + split; [discriminate|]. intros [[= ?] _]. done.
  - unfold py_get.
    destruct (apt !! "patient_id") as [v|]; [|by split; [left|]].
    split.
    + intros Hv. right. exists v. split; [done|].
      destruct v as [|[]|z|st|[|]|[|]]; simpl in Hv; try discriminate;
        try set_solver.
      * apply negb_false_iff, Z.eqb_eq in Hv as ->. set_solver.
      * apply negb_false_iff, String.eqb_eq in Hv as ->. set_solver.
    + intros [|(v' & [= <-] & Hin)]; [done|].
      repeat (apply elem_of_cons in Hin as [->|Hin]; [done|]).
      by apply elem_of_nil in Hin.
  - unfold examine. destruct (eligible apt); [|done].
    destruct (in_window f now apt) as [[]|[]]; by split.
  - intros Hget.
    destruct (get_active_appointment_cases f appointments w)
      as [H|[H|(now' & apt' & _ & _ & Ha & H)]]; rewrite H in Hget.
    + discriminate.
    + left. by injection Hget.
    + right. injection Hget as <-.
      by apply examine_Active_inv in Ha as [? _].
Qed.

(** The part of C4 that the code keeps. A record without the
    [slot_duration] key is treated as the same record with [slot_duration]
    30: for an eligible record with an id and a naive start [s], it is
    active exactly when [s <= n < s + 30 minutes]. *)
Theorem missing_slot_duration_is_30 (apt : dict) (str : string) (s n : Z) :
  apt !! "slot_duration" = None ->
  eligible apt = true ->
  is_Some (apt !! "id") ->
  apt !! "start" = Some (JStr str) ->
  f str = Some (Naive s) ->
  examine f (Naive n) apt
  = examine f (Naive n) (<["slot_duration" := JInt 30]> apt)
  ∧ (examine f (Naive n) apt = Active ↔
     window_end s 30 = ret (s + 30 * US_PER_MINUTE)
     ∧ s <= n < s + 30 * US_PER_MINUTE).
Proof.
  intros Hnone Hel Hid Hstart Hparse.
  assert (py_get_default apt "slot_duration" (JInt 30) = JInt 30) as Hdur
    by (unfold py_get_default; by rewrite Hnone).
  split; [|by apply (examine_Active_iff apt str)].
  unfold examine, eligible, in_window, py_get, py_getitem, py_get_default.
  rewrite lookup_insert_eq.
  rewrite !lookup_insert_ne by done.
  by rewrite Hnone.
Qed.


End WindowFacts.



(** C3 at scenario A: the endpoint answers with the booked record, which
    passes the filter. *)
Lemma eligible_iff_booked_and_truthy_witness :
  get_active_appointment fromisoformat_fixed [apt_booked] utc_1415
  = Http200 (Some apt_booked)
  ∧ (apt_booked = ∅ ∨ eligible apt_booked = true).
Proof.
  assert (get_active_appointment fromisoformat_fixed [apt_booked] utc_1415
          = Http200 (Some apt_booked)) as H by (vm_compute; reflexivity).
  split; [exact H|].
  exact (proj2 (proj2 (proj2
           (eligible_iff_booked_and_truthy fromisoformat_fixed apt_booked
              (Naive t_0915) [apt_booked] utc_1415))) H).
Defined.

(** C3 as stated fails: the record is booked and its [patient_id] is present
    and not [null] (it is 0), yet the filter discards it, and the endpoint
    answers with the empty object inside the record's window. *)
Lemma booked_patient_zero_discarded :
  apt_patient_zero !! "status" = Some (JStr "booked")
  ∧ apt_patient_zero !! "patient_id" = Some (JInt 0)
  ∧ eligible apt_patient_zero = false
  ∧ examine fromisoformat_fixed (Naive t_0915) apt_patient_zero = Discarded
  ∧ get_active_appointment fromisoformat_fixed [apt_patient_zero] utc_1415
    = Http200 (Some ∅).
Proof. repeat split; vm_compute; reflexivity. Qed.

(** The booked record without a [slot_duration] key, at 09:15. *)
Lemma missing_slot_duration_is_30_witness :
  (apt_no_duration !! "slot_duration" = None
   ∧ eligible apt_no_duration = true
   ∧ is_Some (apt_no_duration !! "id")
   ∧ apt_no_duration !! "start" = Some (JStr "2025-12-12T09:00:00")
   ∧ fromisoformat_fixed "2025-12-12T09:00:00" = Some (Naive t_0900))
  ∧ (examine fromisoformat_fixed (Naive t_0915) apt_no_duration
     = examine fromisoformat_fixed (Naive t_0915)
         (<["slot_duration" := JInt 30]> apt_no_duration)
     ∧ (examine fromisoformat_fixed (Naive t_0915) apt_no_duration = Active ↔
        window_end t_0900 30 = ret (t_0900 + 30 * US_PER_MINUTE)
        ∧ t_0900 <= t_0915 < t_0900 + 30 * US_PER_MINUTE)).
Proof.
  assert (apt_no_duration !! "slot_duration" = None) as H1
    by (vm_compute; reflexivity).
  assert (eligible apt_no_duration = true) as H2 by (vm_compute; reflexivity).
  assert (is_Some (apt_no_duration !! "id")) as H3
    by (vm_compute; eexists; reflexivity).
  assert (apt_no_duration !! "start" = Some (JStr "2025-12-12T09:00:00"))
    as H4 by (vm_compute; reflexivity).
  assert (fromisoformat_fixed "2025-12-12T09:00:00" = Some (Naive t_0900))
    as H5 by (vm_compute; reflexivity).
  split; [repeat split; assumption|].
  exact (missing_slot_duration_is_30 fromisoformat_fixed apt_no_duration
           "2025-12-12T09:00:00" t_0900 t_0915 H1 H2 H3 H4 H5).
Defined.

(** C4, the failing input. The record has [slot_duration: null]. At 09:15
    a window of 30 minutes from 09:00 contains the instant: the same
    record with [slot_duration] 30, and the same record without the key,
    are the endpoint's answer. But [apt.get("slot_duration", 30)] returns
    [None] for [null], [timedelta(minutes=None)] raises [TypeError], the
    handler that is to skip invalid entries does not catch it, and the
    call fails. *)
Theorem null_slot_duration_raises :
  apt_null_duration !! "slot_duration" = Some JNull
  ∧ eligible apt_null_duration = true
  ∧ get_active_appointment fromisoformat_fixed
      [<["slot_duration" := JInt 30]> apt_null_duration] utc_1415
    = Http200 (Some (<["slot_duration" := JInt 30]> apt_null_duration))
  ∧ get_active_appointment fromisoformat_fixed
      [delete "slot_duration" apt_null_duration] utc_1415
    = Http200 (Some (delete "slot_duration" apt_null_duration))
  ∧ examine fromisoformat_fixed (Naive t_0915) apt_null_duration
    = Raised TypeError
  ∧ get_active_appointment fromisoformat_fixed [apt_null_duration] utc_1415
    = Http500.
Proof. repeat split; vm_compute; reflexivity. Qed.


(** ** Malformed records in the active-appointment loop *)

Section MalformedFacts.

Variable f : string -> option datetime.

(** A missing [start], or a string that is not a timestamp: skipped. *)
Lemma malformed_start_skipped (now : datetime) (apt : dict) :
  eligible apt = true ->
  apt !! "start" = None
  ∨ (∃ str, apt !! "start" = Some (JStr str) ∧ f str = None) ->
  ∃ e, examine f now apt = Skipped e.
Proof.
  intros Hel Hbad. unfold examine, in_window, py_getitem, py_fromisoformat.
  rewrite Hel.
  destruct Hbad as [->|(str & -> & Hf)]; simpl.
  - by exists KeyError.
  - rewrite Hf. simpl. by exists ValueError.
Qed.

(** A [start] that is not a string: [TypeError], not caught. *)
Lemma non_string_start_raises (now : datetime) (apt : dict) (v : json) :
  eligible apt = true ->
  apt !! "start" = Some v ->
  (∀ str, v ≠ JStr str) ->
  examine f now apt = Raised TypeError.
Proof.
  intros Hel Hstart Hv. unfold examine, in_window, py_getitem.
  rewrite Hel, Hstart. simpl.
  destruct v; simpl; try reflexivity. by destruct (Hv s).
Qed.

(** A record that is discarded, skipped or inactive does not change the
    answer. *)
Lemma get_active_appointment_skip (l1 l2 : list dict) (apt : dict) (w : Z)
  (now : datetime) :
  normalized_now (Aware w 0) = ret now ->
  quiet (examine f now apt) = true ->
  examine f now apt ≠ Active ->
  get_active_appointment f (l1 ++ apt :: l2) w
  = get_active_appointment f (l1 ++ l2) w.
Proof.
  intros Hn Hq Hna.
  destruct (quiet_dec_all f now (l1 ++ l2)) as [Hall|Hex].
  - rewrite !(get_active_appointment_quiet f _ w now Hn); [|done|].
    + unfold active_records. rewrite !filter_app.
      by rewrite filter_cons_False.
    + apply Forall_app in Hall as [H1 H2]. apply Forall_app.
      split; [done|]. by constructor.
  - rewrite !(get_active_appointment_raised f _ w now Hn); [done|done|].
    apply Exists_app in Hex as [H1|H2]; apply Exists_app;
      [by left|right]. by apply Exists_cons_tl.
Qed.

End MalformedFacts.

(** C6, the failing input. The first record has [start: null]:
    [datetime.fromisoformat(None)] raises [TypeError], the handler catches
    only [ValueError] and [KeyError], and the call fails, although the
    second record is active at 09:15 and is the answer when it stands
    alone. *)
Theorem null_start_fails_the_call :
  examine fromisoformat_fixed (Naive t_0915) apt_null_start = Raised TypeError
  ∧ examine fromisoformat_fixed (Naive t_0915) apt_other = Active
  ∧ get_active_appointment fromisoformat_fixed [apt_other] utc_1415
    = Http200 (Some apt_other)
  ∧ get_active_appointment fromisoformat_fixed [apt_null_start; apt_other]
      utc_1415 = Http500.
Proof. repeat split; vm_compute; reflexivity. Qed.

(** ** Which active record is returned *)

Section SelectionFacts.

Variable f : string -> option datetime.

Lemma active_records_perm (now : datetime) (l l' : list dict) :
  l ≡ₚ l' -> active_records f now l ≡ₚ active_records f now l'.
Proof. intros Hp. unfold active_records. by rewrite Hp. Qed.

(** C7 (as amended). When no record raises and at least one record is
    active, the endpoint answers with an active record whose [start]
    string is smallest in the lexicographic order, the first such record
    in input order: the active records before it have strictly larger
    strings. When the active records have pairwise distinct [start]
    strings, every permutation of the input gets the same answer. When
    the order of the active records' [start] strings agrees with the order
    of the instants they denote, the answer has the earliest start. *)
Theorem active_selection_smallest_start (appointments : list dict) (w : Z)
  (now : datetime) :
  normalized_now (Aware w 0) = ret now ->
  Forall (λ apt, quiet (examine f now apt) = true) appointments ->
  active_records f now appointments ≠ [] ->
  ∃ result,
    get_active_appointment f appointments w = Http200 (Some result)
    ∧ (∃ l1 l2,
         active_records f now appointments = l1 ++ result :: l2
         ∧ Forall (λ apt,
             String.ltb (start_key result) (start_key apt) = true) l1
         ∧ Forall (λ apt, (start_key result ≤ start_key apt)%string) l2)
    ∧ (∀ appointments',
         appointments ≡ₚ appointments' ->
         NoDup (start_key <$> active_records f now appointments) ->
         get_active_appointment f appointments' w
         = Http200 (Some result))
    ∧ (starts_ordered f (active_records f now appointments) ->
       ∀ apt t t',
         apt ∈ active_records f now appointments ->
         start_instant f result = Some t ->
         start_instant f apt = Some t' ->
         t <= t').
Proof.
  intros Hn Hq Hne.
  destruct (first_min_start_is_Some _ Hne) as [result Hres].
  exists result. split_and!.
  - rewrite (get_active_appointment_quiet f _ w now Hn Hq). by rewrite Hres.
  - by apply first_min_start_split.
  - intros appointments' Hp Hnd.
    rewrite (get_active_appointment_quiet f _ w now Hn).
    + rewrite <- (first_min_start_perm _ _ Hnd (active_records_perm now _ _ Hp)).
      by rewrite Hres.
    + by rewrite <- Hp.
  - intros Hord apt t t' Hapt Ht Ht'.
    apply (Hord result apt t t'); try done.
    + by apply first_min_start_elem.
    + by apply (first_min_start_le _ _ apt Hres).
Qed.

End SelectionFacts.

(** C7 at scenario D: records 3 (09:00) and 4 (09:10), both active at
    09:15; record 3 is the answer in either input order. *)
Lemma active_selection_smallest_start_witness :
  (normalized_now (Aware utc_1415 0) = ret (Naive t_0915)
   ∧ Forall (λ apt, quiet (examine fromisoformat_fixed (Naive t_0915) apt)
                     = true) [apt_3; apt_4]
   ∧ active_records fromisoformat_fixed (Naive t_0915) [apt_3; apt_4] ≠ [])
  ∧ get_active_appointment fromisoformat_fixed [apt_3; apt_4] utc_1415
    = Http200 (Some apt_3)
  ∧ get_active_appointment fromisoformat_fixed [apt_4; apt_3] utc_1415
    = Http200 (Some apt_3).
Proof.
  assert (normalized_now (Aware utc_1415 0) = ret (Naive t_0915)) as H1
    by (vm_compute; reflexivity).
  assert (Forall (λ apt, quiet (examine fromisoformat_fixed (Naive t_0915) apt)
                         = true) [apt_3; apt_4]) as H2.
  { constructor; [vm_compute; reflexivity|].
    constructor; [vm_compute; reflexivity|constructor]. }
  assert (active_records fromisoformat_fixed (Naive t_0915)
            [apt_3; apt_4] ≠ []) as H3
    by (vm_compute; discriminate).
  assert (get_active_appointment fromisoformat_fixed [apt_3; apt_4] utc_1415
          = Http200 (Some apt_3)) as Hget by (vm_compute; reflexivity).
  split; [repeat split; assumption|]. split; [exact Hget|].
  destruct (active_selection_smallest_start fromisoformat_fixed
              [apt_3; apt_4] utc_1415 (Naive t_0915) H1 H2 H3)
    as (result & Hres & _ & Hperm & _).
  rewrite Hget in Hres. injection Hres as <-.
  apply Hperm; [apply Permutation_swap|].
  vm_compute. apply NoDup_cons. split.
  - intros Hin. apply list_elem_of_singleton in Hin. discriminate.
  - apply NoDup_singleton.
Defined.

(** In scenario D the order of the strings is the order of the instants. *)
Lemma scenario_d_starts_ordered :
  starts_ordered fromisoformat_fixed [apt_3; apt_4].
Proof.
  intros a b ta tb Ha Hb Hta Htb Hle.
  apply elem_of_cons in Ha as [->|Ha]; [|apply list_elem_of_singleton in Ha as ->];
    (apply elem_of_cons in Hb as [->|Hb];
       [|apply list_elem_of_singleton in Hb as ->]);
    vm_compute in Hta; vm_compute in Htb;
    injection Hta as <-; injection Htb as <-;
    try (vm_compute; discriminate).
  vm_compute in Hle. destruct Hle.
Qed.

(** C7 as stated fails twice. Records 3 and 8 have the same start and are
    both active at 09:15: the answer is whichever comes first in the input,
    so a permutation changes it. Records 3 (09:00) and 6 (09:10, written
    with a space) are both active at 09:15: the answer is record 6, whose
    string is smaller although its start is later. *)
Lemma active_selection_depends_on_order :
  (apt_3 ≠ apt_twin
   ∧ [apt_3; apt_twin] ≡ₚ [apt_twin; apt_3]
   ∧ active_records fromisoformat_fixed (Naive t_0915) [apt_3; apt_twin]
     = [apt_3; apt_twin]
   ∧ get_active_appointment fromisoformat_fixed [apt_3; apt_twin] utc_1415
     = Http200 (Some apt_3)
   ∧ get_active_appointment fromisoformat_fixed [apt_twin; apt_3] utc_1415
     = Http200 (Some apt_twin))
  ∧ (active_records fromisoformat_fixed (Naive t_0915) [apt_3; apt_space]
     = [apt_3; apt_space]
     ∧ py_fromisoformat fromisoformat_fixed (py_get apt_3 "start")
       = ret (Naive t_0900)
     ∧ py_fromisoformat fromisoformat_fixed (py_get apt_space "start")
       = ret (Naive t_0910)
     ∧ t_0900 < t_0910
     ∧ get_active_appointment fromisoformat_fixed [apt_3; apt_space] utc_1415
       = Http200 (Some apt_space)).
Proof.
  split.
  - split_and!; try (vm_compute; reflexivity).
    + intros Heq. apply (f_equal (λ d : dict, d !! "id")) in Heq.
      vm_compute in Heq. discriminate.
    + apply Permutation_swap.
  - split_and!; vm_compute; reflexivity.
Qed.

(** ** The per-patient query *)

Section UpcomingFacts.

Variable f : string -> option datetime.

Lemma scan_upcoming_cons (now : datetime) (pid : Z) (apt : dict)
  (rest acc : list dict) :
  scan_upcoming f now pid (apt :: rest) acc =
  if booked_for pid apt then
    match is_upcoming f now apt with
    | inr true => scan_upcoming f now pid rest (acc ++ [apt])
    | inr false => scan_upcoming f now pid rest acc
    | inl e => raise e
    end
  else scan_upcoming f now pid rest acc.
Proof.
  unfold booked_for, is_upcoming. simpl.
  destruct (_ && _); [|reflexivity].
  destruct (py_getitem apt "start") as [e|raw]; simpl; [reflexivity|].
  destruct (py_fromisoformat f raw) as [e|start_time]; simpl;
    [reflexivity|].
  by destruct (dt_ge start_time now) as [e|[]].
Qed.

(** When no record of the patient raises, the loop keeps the qualifying
    records, in the order of the input. *)
Lemma scan_upcoming_ok (now : datetime) (pid : Z)
  (appointments acc : list dict) :
  Forall (λ apt, fails f now pid apt = false) appointments ->
  scan_upcoming f now pid appointments acc
  = ret (acc ++ filter (λ apt, qualifies f now pid apt = true) appointments).
Proof.
  revert acc. induction appointments as [|apt rest IH]; intros acc Hall.
  - simpl. by rewrite app_nil_r.
  - apply Forall_cons in Hall as [Hapt Hrest].
    rewrite scan_upcoming_cons, filter_cons.
    destruct (booked_for pid apt) eqn:Hb.
    + destruct (is_upcoming f now apt) as [e|[]] eqn:Hu.
      * unfold fails in Hapt. rewrite Hb, Hu in Hapt. discriminate.
      * rewrite IH by done.
        rewrite decide_True by (unfold qualifies; by rewrite Hb, Hu).
        by rewrite <- app_assoc.
      * rewrite IH by done.
        rewrite decide_False; [done|].
        unfold qualifies. rewrite Hb, Hu. done.
    + rewrite IH by done.
      rewrite decide_False; [done|]. unfold qualifies. by rewrite Hb.
Qed.

(** When some record of the patient raises, so does the loop. *)
Lemma scan_upcoming_fails (now : datetime) (pid : Z)
  (appointments acc : list dict) :
  Exists (λ apt, fails f now pid apt = true) appointments ->
  ∃ e, scan_upcoming f now pid appointments acc = raise e.
Proof.
  revert acc. induction appointments as [|apt rest IH]; intros acc Hex.
  - by apply Exists_nil in Hex.
  - rewrite scan_upcoming_cons.
    apply Exists_cons in Hex as [Hex|Hex].
    + unfold fails in Hex. destruct (booked_for pid apt); [|done].
      destruct (is_upcoming f now apt) as [e|b]; [by exists e|done].
    + destruct (booked_for pid apt); [|by apply IH].
      destruct (is_upcoming f now apt) as [e|[]];
        [by exists e|by apply IH..].
Qed.

Lemma fails_dec_all (now : datetime) (pid : Z) (appointments : list dict) :
  Forall (λ apt, fails f now pid apt = false) appointments
  ∨ Exists (λ apt, fails f now pid apt = true) appointments.
Proof.
  destruct (Forall_Exists_dec
              (λ apt, fails f now pid apt = false)
              (λ apt, fails f now pid apt = true)
              (λ apt, match fails f now pid apt as b
                        return {b = false} + {b = true} with
                      | true => right eq_refl
                      | false => left eq_refl
                      end) appointments); auto.
Qed.

(** The answer of the query when no record of the patient raises. *)
Lemma get_current_appointment_ok (appointments : list dict) (pid n : Z) :
  Forall (λ apt, fails f (Naive n) pid apt = false) appointments ->
  get_current_appointment f appointments pid n
  = Http200 (first_min_start
               (filter (λ apt, qualifies f (Naive n) pid apt = true)
                  appointments)).
Proof.
  intros Hall. unfold get_current_appointment.
  rewrite (scan_upcoming_ok _ _ _ [] Hall). simpl.
  destruct (filter _ appointments) as [|a l]; [done|].
  pose proof (head_sort_by_start (a :: l)) as Hhead.
  destruct (sort_by_start (a :: l)) as [|r l'] eqn:Hsort.
  - pose proof (sort_by_start_perm (a :: l)) as Hp.
    rewrite Hsort in Hp. by apply Permutation_nil in Hp.
  - by rewrite <- Hhead.
Qed.

(** The answer of the query when some record of the patient raises. *)
Lemma get_current_appointment_fails (appointments : list dict) (pid n : Z) :
  Exists (λ apt, fails f (Naive n) pid apt = true) appointments ->
  get_current_appointment f appointments pid n = Http500.
Proof.
  intros Hex. unfold get_current_appointment.
  by destruct (scan_upcoming_fails _ _ _ [] Hex) as [e ->].
Qed.

(** A record is kept exactly when it is a booked record of the patient
    whose start parses to a naive timestamp at or after the instant that
    was read from the clock. *)
Lemma qualifies_iff (pid n : Z) (apt : dict) :
  qualifies f (Naive n) pid apt = true ↔
  booked_for pid apt = true
  ∧ ∃ str s, apt !! "start" = Some (JStr str)
             ∧ f str = Some (Naive s) ∧ n <= s.
Proof.
  unfold qualifies, is_upcoming, py_getitem, py_fromisoformat.
  destruct (booked_for pid apt); simpl; [|by split; [|intros [? _]]].
  destruct (apt !! "start") as [[| | |str| |]|]; simpl;
    try (split; [discriminate|by intros [_ (? & ? & ? & _)]]).
  destruct (f str) as [[s|s off]|] eqn:Hf; simpl.
  - split.
    + intros Hle%Z.leb_le. split; [done|]. by exists str, s.
    + intros [_ (str' & s' & [= <-] & Hf' & Hle)].
      rewrite Hf in Hf'. injection Hf' as <-. by apply Z.leb_le.
  - split; [discriminate|].
    intros [_ (str' & s' & [= <-] & Hf' & _)]. congruence.
  - split; [discriminate|].
    intros [_ (str' & s' & [= <-] & Hf' & _)]. congruence.
Qed.

(** The part of C8 that the code keeps, and what it returns. The query
    keeps the records that are booked for the
    given patient and whose start is at or after the instant read from
    the clock, with no shift applied. When no record of the patient
    raises, it answers [null] if no record is kept, and otherwise a kept
    record whose [start] string is smallest in the lexicographic order;
    that record has the earliest start when the order of the kept
    records' [start] strings agrees with the order of the instants they
    denote. *)
Theorem upcoming_selection_smallest_start (appointments : list dict)
  (pid n : Z) :
  Forall (λ apt, fails f (Naive n) pid apt = false) appointments ->
  (∀ apt, qualifies f (Naive n) pid apt = true ↔
          booked_for pid apt = true
          ∧ ∃ str s, apt !! "start" = Some (JStr str)
                     ∧ f str = Some (Naive s) ∧ n <= s)
  ∧ match get_current_appointment f appointments pid n with
    | Http200 None =>
      ∀ apt, apt ∈ appointments -> qualifies f (Naive n) pid apt = false
    | Http200 (Some result) =>
      result ∈ appointments
      ∧ qualifies f (Naive n) pid result = true
      ∧ (∀ apt, apt ∈ appointments ->
                qualifies f (Naive n) pid apt = true ->
                (start_key result ≤ start_key apt)%string)
      ∧ (starts_ordered f
           (filter (λ apt, qualifies f (Naive n) pid apt = true)
              appointments) ->
         ∀ apt t t',
           apt ∈ appointments ->
           qualifies f (Naive n) pid apt = true ->
           start_instant f result = Some t ->
           start_instant f apt = Some t' ->
           t <= t')
    | Http500 => False
    end.
Proof.
  intros Hall. split; [intros apt; apply qualifies_iff|].
  rewrite (get_current_appointment_ok _ _ _ Hall).
  destruct (first_min_start _) as [result|] eqn:Hres.
  - pose proof (first_min_start_elem _ _ Hres) as Hin.
    apply list_elem_of_filter in Hin as [Hq Hin].
    assert (∀ apt, apt ∈ appointments ->
              qualifies f (Naive n) pid apt = true ->
              (start_key result ≤ start_key apt)%string) as Hmin.
    { intros apt Hapt Hqa.
      apply (first_min_start_le _ _ apt Hres).
      by apply list_elem_of_filter. }
    split_and!; [done..|].
    intros Hord apt t t' Hapt Hqa Ht Ht'.
    apply (Hord result apt t t'); try done.
    + by apply list_elem_of_filter.
    + by apply list_elem_of_filter.
    + by apply Hmin.
  - apply first_min_start_None in Hres.
    intros apt Hapt. destruct (qualifies f (Naive n) pid apt) eqn:Hq; [|done].
    assert (apt ∈ filter (λ apt, qualifies f (Naive n) pid apt = true)
              appointments) as Hin by by apply list_elem_of_filter.
    rewrite Hres in Hin. by apply elem_of_nil in Hin.
Qed.

(** Every record that reaches the sort has a string under ["start"]. *)
Lemma scan_upcoming_start_is_str (now : datetime) (pid : Z)
  (appointments l : list dict) :
  scan_upcoming f now pid appointments [] = ret l ->
  Forall (λ apt, ∃ str, apt !! "start" = Some (JStr str)) l.
Proof.
  intros Hs. destruct (fails_dec_all now pid appointments) as [H|H].
  - rewrite (scan_upcoming_ok _ _ _ [] H) in Hs. injection Hs as <-.
    simpl. apply Forall_forall. intros apt [Hq _]%list_elem_of_filter.
    revert Hq. unfold qualifies, is_upcoming, py_getitem, py_fromisoformat.
    destruct (booked_for pid apt); simpl; [|discriminate].
    destruct (apt !! "start") as [[| | |str| |]|]; simpl;
      try discriminate.
    intros _. by exists str.
  - destruct (scan_upcoming_fails _ _ _ [] H) as [e He].
    rewrite He in Hs. discriminate.
Qed.

(** What the query can answer. *)
Lemma get_current_appointment_Some (appointments : list dict) (pid n : Z)
  (result : dict) :
  get_current_appointment f appointments pid n = Http200 (Some result) ->
  result ∈ appointments ∧ qualifies f (Naive n) pid result = true.
Proof.
  intros Hget. destruct (fails_dec_all (Naive n) pid appointments) as [H|H].
  - rewrite (get_current_appointment_ok _ _ _ H) in Hget.
    injection Hget as Hres.
    apply first_min_start_elem, list_elem_of_filter in Hres as [? ?].
    done.
  - rewrite (get_current_appointment_fails _ _ _ H) in Hget. discriminate.
Qed.

(** C10. Whatever the query answers has a start at or after the instant
    read from the clock. So a record whose start is strictly before that
    instant is never the answer, whether or not the instant lies inside
    its window; a booked record of the patient that starts exactly at the
    instant is the answer when it stands alone. *)
Theorem upcoming_never_in_progress (appointments : list dict) (pid n : Z)
  (apt : dict) (str : string) (s : Z) :
  apt !! "start" = Some (JStr str) ->
  f str = Some (Naive s) ->
  (∀ result,
     get_current_appointment f appointments pid n = Http200 (Some result) ->
     ∃ str' s', result !! "start" = Some (JStr str')
                ∧ f str' = Some (Naive s') ∧ n <= s')
  ∧ (s < n ->
     get_current_appointment f appointments pid n ≠ Http200 (Some apt))
  ∧ (s = n -> booked_for pid apt = true ->
     get_current_appointment f [apt] pid n = Http200 (Some apt)).
Proof.
  intros Hstart Hparse. split_and!.
  - intros result [_ Hq]%get_current_appointment_Some.
    by apply qualifies_iff in Hq as [_ ?].
  - intros Hlt [_ Hq]%get_current_appointment_Some.
    apply qualifies_iff in Hq as [_ (str' & s' & Hs' & Hf' & Hle)].
    rewrite Hstart in Hs'. injection Hs' as <-.
    rewrite Hparse in Hf'. injection Hf' as <-. lia.
  - intros -> Hb.
    assert (qualifies f (Naive n) pid apt = true) as Hq.
    { apply qualifies_iff. split; [done|]. exists str, n. by split_and!. }
    rewrite get_current_appointment_ok.
    + rewrite filter_cons_True by done. by rewrite filter_nil.
    + constructor; [|constructor]. unfold fails, qualifies in *.
      destruct (booked_for pid apt); [|done].
      by destruct (is_upcoming f (Naive n) apt).
Qed.

End UpcomingFacts.

(** Records 3 (09:00) and 4 (09:10) of patient 7 and a record of
    patient 8, read at 08:00. *)
Lemma upcoming_selection_smallest_start_witness :
  Forall (λ apt, fails fromisoformat_fixed (Naive t_0800) 7 apt = false)
    [apt_4; apt_other; apt_3]
  ∧ get_current_appointment fromisoformat_fixed [apt_4; apt_other; apt_3]
      7 t_0800 = Http200 (Some apt_3)
  ∧ (∀ apt, apt ∈ [apt_4; apt_other; apt_3] ->
            qualifies fromisoformat_fixed (Naive t_0800) 7 apt = true ->
            (start_key apt_3 ≤ start_key apt)%string).
Proof.
  assert (Forall (λ apt, fails fromisoformat_fixed (Naive t_0800) 7 apt = false)
            [apt_4; apt_other; apt_3]) as Hall.
  { repeat (constructor; [vm_compute; reflexivity|]). constructor. }
  assert (get_current_appointment fromisoformat_fixed
            [apt_4; apt_other; apt_3] 7 t_0800 = Http200 (Some apt_3)) as Hget
    by (vm_compute; reflexivity).
  pose proof (proj2 (upcoming_selection_smallest_start fromisoformat_fixed
                       [apt_4; apt_other; apt_3] 7 t_0800 Hall)) as Hsel.
  destruct Hsel as (_ & _ & Hmin & _).
  split; [exact Hall|]. split; [exact Hget|exact Hmin].
Defined.

(** C8, the failing input. Records 3 (09:00) and 6 (09:10, written with a
    space between date and time) are both booked for patient 7 and both
    start after 08:00. The query is to return the earliest upcoming
    appointment, record 3, which is its answer when record 3 stands alone;
    it sorts by the start strings and answers record 6, whose start is the
    later one. *)
Theorem upcoming_selection_not_earliest :
  qualifies fromisoformat_fixed (Naive t_0800) 7 apt_3 = true
  ∧ qualifies fromisoformat_fixed (Naive t_0800) 7 apt_space = true
  ∧ py_fromisoformat fromisoformat_fixed (py_get apt_3 "start")
    = ret (Naive t_0900)
  ∧ py_fromisoformat fromisoformat_fixed (py_get apt_space "start")
    = ret (Naive t_0910)
  ∧ t_0900 < t_0910
  ∧ get_current_appointment fromisoformat_fixed [apt_3] 7 t_0800
    = Http200 (Some apt_3)
  ∧ get_current_appointment fromisoformat_fixed [apt_3; apt_space] 7 t_0800
    = Http200 (Some apt_space).
Proof. split_and!; vm_compute; reflexivity. Qed.

(** C9, the failing input. Record 9 is booked for patient 7 and its start
    is not a timestamp: [fromisoformat] raises [ValueError], the loop of the
    per-patient query has no handler, and the call fails, although record 3
    of the same patient is upcoming and is the answer when it stands alone.
    The active-appointment endpoint skips the same record. *)
Theorem bad_start_fails_current_appointment :
  booked_for 7 apt_bad_start = true
  ∧ is_upcoming fromisoformat_fixed (Naive t_0800) apt_bad_start
    = raise ValueError
  ∧ get_current_appointment fromisoformat_fixed [apt_3] 7 t_0800
    = Http200 (Some apt_3)
  ∧ get_current_appointment fromisoformat_fixed [apt_bad_start; apt_3]
      7 t_0800 = Http500
  ∧ get_active_appointment fromisoformat_fixed [apt_bad_start; apt_3] utc_1415
    = Http200 (Some apt_3).
Proof. split_and!; vm_compute; reflexivity. Qed.

(** C10 at record 3 (09:00) of patient 7: at 09:15, inside its window, it
    is not the answer (nothing is); at 09:00 it is. *)
Lemma upcoming_never_in_progress_witness :
  (apt_3 !! "start" = Some (JStr "2025-12-12T09:00:00")
   ∧ fromisoformat_fixed "2025-12-12T09:00:00" = Some (Naive t_0900))
  ∧ (t_0900 < t_0915 ->
     get_current_appointment fromisoformat_fixed [apt_3; apt_4] 7 t_0915
     ≠ Http200 (Some apt_3))
  ∧ get_current_appointment fromisoformat_fixed [apt_3; apt_4] 7 t_0915
    = Http200 None
  ∧ get_current_appointment fromisoformat_fixed [apt_3] 7 t_0900
    = Http200 (Some apt_3).
Proof.
  assert (apt_3 !! "start" = Some (JStr "2025-12-12T09:00:00")) as H1
    by (vm_compute; reflexivity).
  assert (fromisoformat_fixed "2025-12-12T09:00:00" = Some (Naive t_0900))
    as H2 by (vm_compute; reflexivity).
  split; [split; assumption|].
  split.
  - exact (proj1 (proj2 (upcoming_never_in_progress fromisoformat_fixed
                           [apt_3; apt_4] 7 t_0915 apt_3
                           "2025-12-12T09:00:00" t_0900 H1 H2))).
  - split; [vm_compute; reflexivity|].
    apply (proj2 (proj2 (upcoming_never_in_progress fromisoformat_fixed
                           [apt_3] 7 t_0900 apt_3
                           "2025-12-12T09:00:00" t_0900 H1 H2)));
      [reflexivity|vm_compute; reflexivity].
Defined.

(** ** The scenarios of the specification *)

(** Scenario A: the booked record is returned at 09:15 local time. *)
Example scenario_a :
  get_active_appointment fromisoformat_fixed [apt_booked] utc_1415
  = Http200 (Some apt_booked).
Proof. vm_compute. reflexivity. Qed.

(** Scenario B: at 09:30 the end of the window is excluded. *)
Example scenario_b :
  get_active_appointment fromisoformat_fixed [apt_booked] utc_1430
  = Http200 (Some ∅).
Proof. vm_compute. reflexivity. Qed.

(** Scenario C: an available slot is never active. *)
Example scenario_c (w : Z) :
  5 * US_PER_HOUR <= w < DATETIME_END ->
  get_active_appointment fromisoformat_fixed [apt_available] w
  = Http200 (Some ∅).
Proof.
  intros Hw.
  rewrite (get_active_appointment_quiet fromisoformat_fixed _ w _
             (normalized_now_utc w Hw)).
  - done.
  - by repeat constructor.
Qed.

(** Scenario D: of records 3 and 4, both active at 09:20, record 3 is
    returned. *)
Example scenario_d :
  get_active_appointment fromisoformat_fixed [apt_4; apt_3] utc_1420
  = Http200 (Some apt_3).
Proof. vm_compute. reflexivity. Qed.

(** Scenario E: the empty list gives the empty result. *)
Example scenario_e (f : string -> option datetime) (w : Z) :
  5 * US_PER_HOUR <= w < DATETIME_END ->
  get_active_appointment f [] w = Http200 (Some ∅).
Proof.
  intros Hw.
  by rewrite (get_active_appointment_quiet f [] w _ (normalized_now_utc w Hw)).
Qed.

(** * The rest of [main.py]: properties *)

(** ** [get_patient] *)

Lemma next_patient_Some (patients : list dict) (pid : Z) (p : dict) :
  next_patient patients pid = ret (Some p) ↔
  ∃ l1 l2, patients = l1 ++ p :: l2
           ∧ Forall (other_id pid) l1 ∧ has_id pid p.
Proof.
  induction patients as [|q l IH]; simpl.
  - split; [discriminate|]. intros (l1 & l2 & Hl & _). by destruct l1.
  - unfold py_getitem. destruct (q !! "id") as [v|] eqn:Hq; simpl.
    + destruct (py_eq_int v pid) eqn:Hv.
      * split.
        -- intros [= <-]. exists [], l. split_and!; [done|constructor|].
           by exists v.
        -- intros (l1 & l2 & Hl & Hall & Hp). f_equal. f_equal.
           destruct l1 as [|a l1]; simpl in Hl; [by injection Hl|].
           injection Hl as <- _. apply Forall_cons in Hall as [(w & Hw & Hne) _].
           congruence.
      * rewrite IH. split.
        -- intros (l1 & l2 & -> & Hall & Hp). exists (q :: l1), l2.
           split_and!; [done| |done]. constructor; [by exists v|done].
        -- intros (l1 & l2 & Hl & Hall & Hp).
           destruct l1 as [|a l1]; simpl in Hl.
           ++ injection Hl as <- _. destruct Hp as (w & Hw & He). congruence.
           ++ injection Hl as <- ->. apply Forall_cons in Hall as [_ Hall].
              by exists l1, l2.
    + split; [discriminate|].
      intros (l1 & l2 & Hl & Hall & Hp).
      destruct l1 as [|a l1]; simpl in Hl.
      * injection Hl as <- _. destruct Hp as (w & Hw & _). congruence.
      * injection Hl as <- _. apply Forall_cons in Hall as [(w & Hw & _) _].
        congruence.
Qed.

Lemma next_patient_None (patients : list dict) (pid : Z) :
  next_patient patients pid = ret None ↔ Forall (other_id pid) patients.
Proof.
  induction patients as [|q l IH]; simpl.
  - split; [constructor|done].
  - unfold py_getitem. destruct (q !! "id") as [v|] eqn:Hq; simpl.
    + destruct (py_eq_int v pid) eqn:Hv.
      * split; [discriminate|]. intros [(w & Hw & Hne) _]%Forall_cons.
        congruence.
      * rewrite IH. split.
        -- intros Hall. constructor; [by exists v|done].
        -- by intros [_ Hall]%Forall_cons.
    + split; [discriminate|]. intros [(w & Hw & _) _]%Forall_cons. congruence.
Qed.

Lemma next_patient_raise (patients : list dict) (pid : Z) (e : exn) :
  next_patient patients pid = raise e ↔
  e = KeyError
  ∧ ∃ l1 q l2, patients = l1 ++ q :: l2
               ∧ Forall (other_id pid) l1 ∧ q !! "id" = None.
Proof.
  induction patients as [|q l IH]; simpl.
  - split; [discriminate|]. intros (_ & l1 & q & l2 & Hl & _). by destruct l1.
  - unfold py_getitem. destruct (q !! "id") as [v|] eqn:Hq; simpl.
    + destruct (py_eq_int v pid) eqn:Hv.
      * split; [discriminate|].
        intros (_ & l1 & q' & l2 & Hl & Hall & Hn).
        destruct l1 as [|a l1]; simpl in Hl.
        -- injection Hl as <- _. congruence.
        -- injection Hl as <- _.
           apply Forall_cons in Hall as [(w & Hw & Hne) _]. congruence.
      * rewrite IH. split.
        -- intros (-> & l1 & q' & l2 & -> & Hall & Hn). split; [done|].
           exists (q :: l1), q', l2. split_and!; [done| |done].
           constructor; [by exists v|done].
        -- intros (-> & l1 & q' & l2 & Hl & Hall & Hn). split; [done|].
           destruct l1 as [|a l1]; simpl in Hl.
           ++ injection Hl as <- _. congruence.
           ++ injection Hl as <- ->. apply Forall_cons in Hall as [_ Hall].
              by exists l1, q', l2.
    + split.
      * intros [= <-]. split; [done|]. exists [], q, l.
        split_and!; [done|constructor|done].
      * by intros (-> & _).
Qed.

Lemma has_id_nonempty (pid : Z) (p : dict) : has_id pid p -> size p ≠ 0%nat.
Proof.
  intros (v & Hv & _) Hsize. apply map_size_empty_inv in Hsize. subst p.
  by rewrite lookup_empty in Hv.
Qed.

(** X1. [get_patient] answers 200 with a record exactly when that record is
    the first of the list whose id equals the requested one and every
    record before it has an id; what follows the record is not looked at. *)
Theorem get_patient_first_match (patients : list dict) (pid : Z) (p : dict) :
  get_patient patients pid = Patient200 p ↔
  ∃ l1 l2, patients = l1 ++ p :: l2
           ∧ Forall (other_id pid) l1 ∧ has_id pid p.
Proof.
  rewrite <- next_patient_Some. unfold get_patient.
  destruct (next_patient patients pid) as [e|[q|]] eqn:Hn.
  - split; discriminate.
  - apply next_patient_Some in Hn as (l1 & l2 & _ & _ & Hq).
    apply has_id_nonempty in Hq. rewrite decide_False by done.
    split; [by intros [= ->]|]. unfold ret. by intros [= ->].
  - split; discriminate.
Qed.

(** X2. [get_patient] answers 404 exactly when every record of the list
    has an id and none equals the requested one; the empty list is the
    first case of this. *)
Theorem get_patient_not_found (patients : list dict) (pid : Z) :
  get_patient patients pid = Patient404 ↔ Forall (other_id pid) patients.
Proof.
  rewrite <- next_patient_None. unfold get_patient.
  destruct (next_patient patients pid) as [e|[q|]] eqn:Hn.
  - split; discriminate.
  - apply next_patient_Some in Hn as (l1 & l2 & _ & _ & Hq).
    apply has_id_nonempty in Hq. rewrite decide_False by done.
    split; discriminate.
  - done.
Qed.

(** X3. [get_patient] fails with a 500 exactly when a record without an
    ["id"] key comes before any record with the requested id: [p["id"]]
    raises [KeyError], which nothing handles. *)
Theorem get_patient_missing_id (patients : list dict) (pid : Z) :
  get_patient patients pid = Patient500 ↔
  ∃ l1 q l2, patients = l1 ++ q :: l2
             ∧ Forall (other_id pid) l1 ∧ q !! "id" = None.
Proof.
  unfold get_patient.
  destruct (next_patient patients pid) as [e|[q|]] eqn:Hn.
  - apply next_patient_raise in Hn as [_ Hn]. done.
  - pose proof Hn as Hn'.
    apply next_patient_Some in Hn as (l1 & l2 & _ & _ & Hq).
    apply has_id_nonempty in Hq. rewrite decide_False by done.
    split; [discriminate|]. intros Hex.
    assert (next_patient patients pid = raise KeyError) as Hr
      by by apply next_patient_raise.
    rewrite Hr in Hn'. discriminate.
  - split; [discriminate|]. intros Hex.
    assert (next_patient patients pid = raise KeyError) as Hr
      by by apply next_patient_raise.
    rewrite Hr in Hn. discriminate.
Qed.

(** X1 on a list whose last record has no id: the lookup stops before it. *)
Lemma get_patient_first_match_witness :
  get_patient [patient_1; patient_2; patient_no_id] 2 = Patient200 patient_2.
Proof.
  apply (proj2 (get_patient_first_match
                  [patient_1; patient_2; patient_no_id] 2 patient_2)).
  exists [patient_1], [patient_no_id]. split; [reflexivity|]. split.
  - constructor; [|constructor]. exists (JInt 1).
    split; vm_compute; reflexivity.
  - exists (JInt 2). split; vm_compute; reflexivity.
Defined.

(** X2 on two patients, neither with id 3. *)
Lemma get_patient_not_found_witness :
  get_patient [patient_1; patient_2] 3 = Patient404.
Proof.
  apply (proj2 (get_patient_not_found [patient_1; patient_2] 3)).
  constructor; [|constructor; [|constructor]].
  - exists (JInt 1). split; vm_compute; reflexivity.
  - exists (JInt 2). split; vm_compute; reflexivity.
Defined.

(** X3: the record without id stands before patient 2. *)
Lemma get_patient_missing_id_witness :
  get_patient [patient_1; patient_no_id; patient_2] 2 = Patient500.
Proof.
  apply (proj2 (get_patient_missing_id
                  [patient_1; patient_no_id; patient_2] 2)).
  exists [patient_1], patient_no_id, [patient_2].
  split; [reflexivity|]. split; [|vm_compute; reflexivity].
  constructor; [|constructor]. exists (JInt 1).
  split; vm_compute; reflexivity.
Defined.

(** ** [debug_appointments] and the active-appointment endpoint *)

Lemma ineligible_Discarded (f : string -> option datetime) (now : datetime)
  (apt : dict) :
  eligible apt = false -> examine f now apt = Discarded.
Proof. intros H. unfold examine. by rewrite H. Qed.




(** ** The text of the encounter summary *)

Section SummaryFacts.

Variable py_str : json -> string.

(** X5. When the transcription has a ["segments"] key, the text is built
    from the segments alone: a ["text"] key, present or not, changes
    nothing, and an empty list of segments gives the empty text even when
    ["text"] holds a transcript. *)
Theorem segments_shadow_text (transcription : dict) (segments v : json) :
  transcription !! "segments" = Some segments ->
  transcription_text py_str (<["text" := v]> transcription)
  = segments_text py_str segments
  ∧ transcription_text py_str (delete "text" transcription)
    = segments_text py_str segments
  ∧ (segments = JArr [] ->
     transcription_text py_str (<["text" := v]> transcription) = Some "").
Proof.
  intros Hs. unfold transcription_text.
  rewrite lookup_insert_ne by done. rewrite lookup_delete_ne by done.
  rewrite Hs. split_and!; [done..|]. by intros ->.
Qed.

Lemma segment_lines_Forall2 (items : list json)
  (descr : list (option string * option string)) :
  (∀ s, py_str (JStr s) = s) ->
  Forall2 (λ item d, ∃ fields,
             item = JObj fields
             ∧ obj_get fields "speaker" = JStr <$> d.1
             ∧ obj_get fields "text" = JStr <$> d.2) items descr ->
  segment_lines py_str items
  = Some ((λ d, default "Unknown" d.1 +:+ ": " +:+ default "" d.2) <$> descr).
Proof.
  intros Hstr. induction 1 as [|item d items descr Hd _ IH]; [done|].
  destruct Hd as (fields & -> & Hsp & Htx). simpl.
  rewrite IH, Hsp, Htx. do 2 f_equal.
  destruct d as [[sp|] [tx|]]; simpl; by rewrite !Hstr.
Qed.

(** X6. When every segment is an object whose speaker and text, where
    present, are strings, the text has one line per segment, in the order
    of the segments: the speaker (or [Unknown] when the key is absent), a
    colon and a space, and the text (or nothing when the key is absent);
    the lines are joined by newlines. *)
Theorem segment_lines_in_order (transcription : dict) (items : list json)
  (descr : list (option string * option string)) :
  (∀ s, py_str (JStr s) = s) ->
  transcription !! "segments" = Some (JArr items) ->
  Forall2 (λ item d, ∃ fields,
             item = JObj fields
             ∧ obj_get fields "speaker" = JStr <$> d.1
             ∧ obj_get fields "text" = JStr <$> d.2) items descr ->
  transcription_text py_str transcription
  = Some (join_lines
            ((λ d, default "Unknown" d.1 +:+ ": " +:+ default "" d.2)
               <$> descr)).
Proof.
  intros Hstr Hs Hall. unfold transcription_text. rewrite Hs. simpl.
  by rewrite (segment_lines_Forall2 items descr Hstr Hall).
Qed.

Lemma segment_lines_Exists (items : list json) :
  Exists (λ item, ∀ fields, item ≠ JObj fields) items ->
  segment_lines py_str items = None.
Proof.
  induction 1 as [item items Hbad|item items _ IH]; simpl.
  - destruct item; simpl; try done. by destruct (Hbad fields).
  - rewrite IH. by destruct (segment_line py_str item).
Qed.

(** X7. When ["segments"] is [null], a boolean or a number, or a list with
    an element that is not an object, building the text raises and the
    endpoint fails, whatever the other segments and the other keys of the
    transcription are. *)
Theorem bad_segments_fail (transcription : dict) (segments : json) :
  transcription !! "segments" = Some segments ->
  segments = JNull
  ∨ (∃ b, segments = JBool b)
  ∨ (∃ z, segments = JInt z)
  ∨ (∃ items, segments = JArr items
              ∧ Exists (λ item, ∀ fields, item ≠ JObj fields) items) ->
  transcription_text py_str transcription = None.
Proof.
  intros Hs Hbad. unfold transcription_text. rewrite Hs.
  destruct Hbad as [->|[[b ->]|[[z ->]|(items & -> & Hex)]]]; try done.
  simpl. by rewrite (segment_lines_Exists items Hex).
Qed.

(** The summary looks the patient up as [get_patient] does, but an
    unknown patient is not an error for it: where [get_patient] answers
    404 the name is the placeholder [Patient]; where it answers 200 the
    name is the first and last name of that record, and the endpoint fails
    when one of the two keys is absent; where it answers 500 the endpoint
    fails too. *)
Theorem patient_name_follows_get_patient (patients : list dict) (pid : Z) :
  match get_patient patients pid with
  | Patient404 => patient_name py_str patients pid = Some "Patient"
  | Patient500 => patient_name py_str patients pid = None
  | Patient200 p =>
    patient_name py_str patients pid
    = match p !! "first_name", p !! "last_name" with
      | Some first, Some last => Some (py_str first +:+ " " +:+ py_str last)
      | _, _ => None
      end
  end.
Proof.
  unfold get_patient, patient_name.
  destruct (next_patient patients pid) as [e|[p|]]; [done| |done].
  by destruct (decide (size p = 0%nat)).
Qed.

End SummaryFacts.

(** X5 on a transcription with two segments and a text. *)
Lemma segments_shadow_text_witness :
  transcription_two !! "segments"
  = Some (JArr [JObj [("speaker", JStr "A"); ("text", JStr "Hello")];
                JObj [("text", JStr "Hi")]])
  ∧ transcription_text str_of_string
      (<["text" := JStr "something else"]> transcription_two)
    = transcription_text str_of_string (delete "text" transcription_two).
Proof.
  assert (transcription_two !! "segments"
          = Some (JArr [JObj [("speaker", JStr "A"); ("text", JStr "Hello")];
                        JObj [("text", JStr "Hi")]])) as Hs
    by (vm_compute; reflexivity).
  split; [exact Hs|].
  destruct (segments_shadow_text str_of_string transcription_two _
              (JStr "something else") Hs) as (H1 & H2 & _).
  rewrite H1, H2. reflexivity.
Defined.

(** X6 on the same transcription: two lines, the second by [Unknown]. *)
Lemma segment_lines_in_order_witness :
  transcription_text str_of_string transcription_two
  = Some ("A: Hello" +:+ NL +:+ "Unknown: Hi").
Proof.
  apply (segment_lines_in_order str_of_string transcription_two
           [JObj [("speaker", JStr "A"); ("text", JStr "Hello")];
            JObj [("text", JStr "Hi")]]
           [(Some "A", Some "Hello"); (None, Some "Hi")]).
  - intros s. reflexivity.
  - vm_compute. reflexivity.
  - constructor; [|constructor; [|constructor]].
    + eexists. split; [reflexivity|]. split; vm_compute; reflexivity.
    + eexists. split; [reflexivity|]. split; vm_compute; reflexivity.
Defined.

(** X7 on a list of segments whose second element is a string. *)
Lemma bad_segments_fail_witness :
  transcription_text str_of_string
    {[ "segments" := JArr [JObj [("text", JStr "Hi")]; JStr "Hello"];
       "text" := JStr "Hi Hello" ]}
  = None.
Proof.
  apply (bad_segments_fail str_of_string _
           (JArr [JObj [("text", JStr "Hi")]; JStr "Hello"])).
  - vm_compute. reflexivity.
  - right; right; right. eexists. split; [reflexivity|].
    apply Exists_cons_tl, Exists_cons_hd. intros fields. discriminate.
Defined.

(** ** More on the two appointment endpoints *)

Section EndpointFacts.

Variable f : string -> option datetime.

(** An eligible record whose start carries a UTC offset and whose duration
    is an integer raises in the loop: [timedelta] or the addition raises
    [OverflowError], or else the comparison with the naive [now] raises
    [TypeError]; the handler catches neither. *)
Lemma aware_start_Raised (now_wall : Z) (apt : dict) (str : string)
  (s off d : Z) :
  eligible apt = true ->
  apt !! "start" = Some (JStr str) ->
  f str = Some (Aware s off) ->
  py_get_default apt "slot_duration" (JInt 30) = JInt d ->
  quiet (examine f (Naive now_wall) apt) = false.
Proof.
  intros He Hs Hf Hd. unfold examine, in_window, py_getitem, py_fromisoformat.
  rewrite He, Hs. simpl. rewrite Hf. simpl. rewrite Hd.
  unfold timedelta_minutes, mk_timedelta.
  destruct (_ && _); simpl; [|done].
  unfold dt_add. simpl. by destruct (_ && _).
Qed.

(** X9. A record whose start parses to a timezone-aware datetime makes the
    call fail, wherever the record stands in the list and whatever the
    other records are: an eligible one whose duration is an integer (the
    [slot_duration] of the record, or the default when the key is absent)
    fails the active-appointment endpoint at every valid clock reading,
    and a booked one of the requested patient fails the per-patient
    query. *)
Theorem aware_start_fails (appointments : list dict) (apt : dict)
  (str : string) (s off w pid n d : Z) :
  apt ∈ appointments ->
  apt !! "start" = Some (JStr str) ->
  f str = Some (Aware s off) ->
  (eligible apt = true ->
   py_get_default apt "slot_duration" (JInt 30) = JInt d ->
   5 * US_PER_HOUR <= w < DATETIME_END ->
   get_active_appointment f appointments w = Http500)
  ∧ (booked_for pid apt = true ->
     get_current_appointment f appointments pid n = Http500).
Proof.
  intros Hin Hs Hf. split.
  - intros He Hd Hw.
    apply (get_active_appointment_raised f _ w _ (normalized_now_utc w Hw)).
    apply Exists_exists. exists apt. split; [done|].
    by apply (aware_start_Raised _ apt str s off d).
  - intros Hb. apply get_current_appointment_fails.
    apply Exists_exists. exists apt. split; [done|].
    unfold fails, is_upcoming, py_getitem, py_fromisoformat.
    rewrite Hb, Hs. simpl. by rewrite Hf.
Qed.

(** X10. A record that the loop discards, skips or finds inactive does not
    change the answer of the active-appointment endpoint, wherever it is
    inserted; for a record that fails the filter (an available slot, for
    instance) this holds at every clock reading. *)
Theorem inactive_record_invisible (l1 l2 : list dict) (apt : dict) (w : Z) :
  (eligible apt = false ->
   get_active_appointment f (l1 ++ apt :: l2) w
   = get_active_appointment f (l1 ++ l2) w)
  ∧ (5 * US_PER_HOUR <= w < DATETIME_END ->
     quiet (examine f (Naive (w - 5 * US_PER_HOUR)) apt) = true ->
     examine f (Naive (w - 5 * US_PER_HOUR)) apt ≠ Active ->
     get_active_appointment f (l1 ++ apt :: l2) w
     = get_active_appointment f (l1 ++ l2) w).
Proof.
  split.
  - intros He. destruct (normalized_now (Aware w 0)) as [e|now] eqn:Hn.
    + by rewrite !(get_active_appointment_overflow f _ w e Hn).
    + apply (get_active_appointment_skip f l1 l2 apt w now Hn);
        by rewrite (ineligible_Discarded f now apt He).
  - intros Hw Hq Hna.
    by apply (get_active_appointment_skip f l1 l2 apt w _
                (normalized_now_utc w Hw)).
Qed.

(** X11. A record that the per-patient query neither keeps nor fails on
    does not change its answer, wherever it is inserted. In particular the
    records of other patients and the records that are not booked are
    never examined: they may lack a start or hold one that does not
    parse. *)
Theorem other_records_invisible (l1 l2 : list dict) (apt : dict) (pid n : Z) :
  (booked_for pid apt = false ->
   get_current_appointment f (l1 ++ apt :: l2) pid n
   = get_current_appointment f (l1 ++ l2) pid n)
  ∧ (qualifies f (Naive n) pid apt = false ->
     fails f (Naive n) pid apt = false ->
     get_current_appointment f (l1 ++ apt :: l2) pid n
     = get_current_appointment f (l1 ++ l2) pid n).
Proof.
  assert (qualifies f (Naive n) pid apt = false ->
          fails f (Naive n) pid apt = false ->
          get_current_appointment f (l1 ++ apt :: l2) pid n
          = get_current_appointment f (l1 ++ l2) pid n) as Hgen.
  { intros Hq Hf.
    destruct (fails_dec_all f (Naive n) pid (l1 ++ l2)) as [Hall|Hex].
    - rewrite !get_current_appointment_ok; [|done|].
      + rewrite !filter_app, filter_cons_False; [done|]. by rewrite Hq.
      + apply Forall_app in Hall as [H1 H2]. apply Forall_app.
        split; [done|]. by constructor.
    - rewrite !get_current_appointment_fails; [done|done|].
      apply Exists_app in Hex as [H1|H2]; apply Exists_app;
        [by left|right]. by apply Exists_cons_tl. }
  split; [|exact Hgen].
  intros Hb. apply Hgen; unfold qualifies, fails; by rewrite Hb.
Qed.

End EndpointFacts.

(** X9 on a record whose start ends in [+00:00], before the booked record of
    scenario A. *)
Lemma aware_start_fails_witness :
  (apt_aware ∈ [apt_aware; apt_booked]
   ∧ apt_aware !! "start" = Some (JStr "2025-12-12T09:00:00+00:00")
   ∧ fromisoformat_utc "2025-12-12T09:00:00+00:00" = Some (Aware t_0900 0))
  ∧ get_active_appointment fromisoformat_utc [apt_aware; apt_booked] utc_1415
    = Http500
  ∧ get_current_appointment fromisoformat_utc [apt_aware; apt_booked]
      7 t_0800 = Http500.
Proof.
  assert (apt_aware ∈ [apt_aware; apt_booked]) as H1 by apply list_elem_of_here.
  assert (apt_aware !! "start" = Some (JStr "2025-12-12T09:00:00+00:00"))
    as H2 by (vm_compute; reflexivity).
  assert (fromisoformat_utc "2025-12-12T09:00:00+00:00"
          = Some (Aware t_0900 0)) as H3 by (vm_compute; reflexivity).
  split; [repeat split; assumption|].
  destruct (aware_start_fails fromisoformat_utc [apt_aware; apt_booked]
              apt_aware "2025-12-12T09:00:00+00:00" t_0900 0 utc_1415 7
              t_0800 30 H1 H2 H3) as [Ha Hc].
  split.
  - apply Ha; [vm_compute; reflexivity|vm_compute; reflexivity|].
    vm_compute. split; [discriminate|reflexivity].
  - apply Hc. vm_compute. reflexivity.
Defined.

(** X10 on an available slot put before the booked record of scenario A. *)
Lemma inactive_record_invisible_witness :
  eligible apt_available = false
  ∧ get_active_appointment fromisoformat_fixed
      ([] ++ apt_available :: [apt_booked]) utc_1415
    = get_active_appointment fromisoformat_fixed ([] ++ [apt_booked]) utc_1415.
Proof.
  assert (eligible apt_available = false) as He by (vm_compute; reflexivity).
  split; [exact He|].
  exact (proj1 (inactive_record_invisible fromisoformat_fixed []
                  [apt_booked] apt_available utc_1415) He).
Defined.

(** X11 on a record of patient 7 with a malformed start, in the query for
    patient 8. *)
Lemma other_records_invisible_witness :
  booked_for 8 apt_bad_start = false
  ∧ get_current_appointment fromisoformat_fixed
      ([] ++ apt_bad_start :: [apt_other]) 8 t_0800
    = get_current_appointment fromisoformat_fixed ([] ++ [apt_other]) 8 t_0800.
Proof.
  assert (booked_for 8 apt_bad_start = false) as Hb
    by (vm_compute; reflexivity).
  split; [exact Hb|].
  exact (proj1 (other_records_invisible fromisoformat_fixed []
                  [apt_other] apt_bad_start 8 t_0800) Hb).
Defined.

(** * [scripts/generate_data.py]: properties *)

(** ** The slots of one day *)

Lemma slot_count_lt (sh eh d : Z) (i : nat) :
  0 < d -> (i < slot_count sh eh d)%nat -> Z.of_nat i * d < (eh - sh) * 60.
Proof.
  unfold slot_count. intros Hd Hi.
  pose proof (Z.div_mod ((eh - sh) * 60 + d - 1) d ltac:(lia)) as Hdm.
  pose proof (Z.mod_pos_bound ((eh - sh) * 60 + d - 1) d Hd) as Hmod.
  set (q := ((eh - sh) * 60 + d - 1) / d) in *.
  set (r := ((eh - sh) * 60 + d - 1) mod d) in *.
  assert (Z.of_nat i < q) as Hq by lia. nia.
Qed.

Lemma slot_count_ge (sh eh d : Z) :
  0 < d -> (eh - sh) * 60 <= Z.of_nat (slot_count sh eh d) * d.
Proof.
  unfold slot_count. intros Hd.
  pose proof (Z.div_mod ((eh - sh) * 60 + d - 1) d ltac:(lia)) as Hdm.
  pose proof (Z.mod_pos_bound ((eh - sh) * 60 + d - 1) d Hd) as Hmod.
  set (q := ((eh - sh) * 60 + d - 1) / d) in *.
  set (r := ((eh - sh) * 60 + d - 1) mod d) in *.
  destruct (Z.le_gt_cases q 0) as [Hq|Hq].
  - rewrite Z2Nat.nonpos by done. nia.
  - rewrite Z2Nat.id by lia. nia.
Qed.

Lemma mk_timedelta_small (us : Z) :
  - DATETIME_END <= us <= DATETIME_END -> mk_timedelta us = ret us.
Proof.
  intros Hus. unfold mk_timedelta.
  pose proof (Z.div_mod us US_PER_DAY ltac:(done)) as Hdm.
  pose proof (Z.mod_pos_bound us US_PER_DAY ltac:(done)) as Hmod.
  assert (((-999999999 <=? us / US_PER_DAY)
           && (us / US_PER_DAY <=? 999999999)) = true) as ->; [|done].
  unfold DATETIME_END, MAXORDINAL, US_PER_DAY in *.
  apply andb_true_iff. split; apply Z.leb_le; lia.
Qed.

Lemma dt_replace_hour_midnight (base hour : Z) :
  base mod US_PER_DAY = 0 -> 0 <= hour <= 23 ->
  dt_replace_hour (Naive base) hour = ret (Naive (base + hour * US_PER_HOUR)).
Proof.
  intros Hbase Hh. unfold dt_replace_hour. simpl.
  assert (((hour <? C_INT_MIN) || (C_INT_MAX <? hour)) = false) as ->
    by (apply orb_false_iff; split; apply Z.ltb_ge;
        unfold C_INT_MIN, C_INT_MAX; lia).
  assert (((0 <=? hour) && (hour <=? 23)) = true) as ->
    by (apply andb_true_iff; split; apply Z.leb_le; lia).
  f_equal. f_equal.
  pose proof (Z.div_mod base US_PER_DAY ltac:(done)) as Hdm.
  rewrite Hbase in Hdm.
  assert (base mod 1000000 = 0) as ->.
  { rewrite Hdm, Z.add_0_r. unfold US_PER_DAY.
    replace (86400000000 * (base / 86400000000))
      with (86400 * (base / 86400000000) * 1000000) by lia.
    apply Z.mod_mul. done. }
  lia.
Qed.

Lemma dt_replace_hour_invalid (d : datetime) (hour : Z) :
  ¬ (0 <= hour <= 23) ->
  dt_replace_hour d hour
  = raise (if decide (C_INT_MIN <= hour <= C_INT_MAX) then ValueError
           else OverflowError).
Proof.
  intros Hh. unfold dt_replace_hour.
  destruct (Z.ltb_spec hour C_INT_MIN), (Z.ltb_spec C_INT_MAX hour); simpl;
    try (rewrite decide_False by lia; done).
  rewrite decide_True by lia.
  destruct (Z.leb_spec 0 hour), (Z.leb_spec hour 23); simpl; try done. lia.
Qed.

Section GeneratorFacts.

Variable f : string -> option datetime.
Variable iso : datetime -> string.

(** The loop from slot [k] on, when [j] more slots begin before the end. *)
Lemma slots_loop_run (t0 t_end delta id0 d : Z) (j : nat) :
  ∀ (k fuel : nat) (acc : list dict),
    delta = d * US_PER_MINUTE -> 0 < delta ->
    0 <= t0 -> t_end + delta <= DATETIME_END ->
    (∀ i : nat, (i < k + j)%nat -> t0 + Z.of_nat i * delta < t_end) ->
    t_end <= t0 + Z.of_nat (k + j) * delta ->
    (j < fuel)%nat ->
    slots_loop iso fuel (Naive (t0 + Z.of_nat k * delta)) (Naive t_end)
      (id0 + Z.of_nat k) d acc
    = Some (ret (acc ++ ((λ i : nat,
                            new_slot iso (id0 + Z.of_nat i)
                              (Naive (t0 + Z.of_nat i * delta)) d)
                           <$> seq k j))).
Proof.
  induction j as [|j IH]; intros k fuel acc Hdelta Hpos Ht0 Hend Hlt Hge Hfuel.
  - destruct fuel as [|fuel]; [lia|]. simpl.
    rewrite Nat.add_0_r in Hge.
    assert ((t0 + Z.of_nat k * delta <? t_end) = false) as ->
      by (apply Z.ltb_ge; lia).
    by rewrite app_nil_r.
  - destruct fuel as [|fuel]; [lia|]. simpl.
    pose proof (Hlt k ltac:(lia)) as Hk.
    assert ((t0 + Z.of_nat k * delta <? t_end) = true) as ->
      by (apply Z.ltb_lt; lia).
    rewrite <- Hdelta.
    rewrite (mk_timedelta_small delta) by lia. simpl.
    unfold dt_add. simpl.
    assert (((0 <=? t0 + Z.of_nat k * delta + delta)
             && (t0 + Z.of_nat k * delta + delta <? DATETIME_END)) = true)
      as ->.
    { apply andb_true_iff. split; [apply Z.leb_le|apply Z.ltb_lt]; nia. }
    replace (t0 + Z.of_nat k * delta + delta)
      with (t0 + Z.of_nat (S k) * delta) by lia.
    replace (id0 + Z.of_nat k + 1) with (id0 + Z.of_nat (S k)) by lia.
    assert (∀ i : nat, (i < S k + j)%nat -> t0 + Z.of_nat i * delta < t_end)
      as Hlt' by (intros i Hi; apply Hlt; lia).
    assert (t_end <= t0 + Z.of_nat (S k + j) * delta) as Hge'
      by (by replace (S k + j)%nat with (k + S j)%nat by lia).
    assert (j < fuel)%nat as Hfuel' by lia.
    unfold ret.
    rewrite (IH (S k) fuel _ Hdelta Hpos Ht0 Hend Hlt' Hge' Hfuel').
    unfold ret. by rewrite <- app_assoc.
Qed.

(** X12. With valid hours and a positive duration the generator ends and
    returns one slot for every multiple of the duration that lies before
    the end hour: their number is the quotient of the minutes between the
    two hours by the duration, rounded up (none when the end hour is not
    after the start hour). Slot [k] has the id [first id + k], the status
    [available], no patient, the duration, and the start [start hour + k
    durations] of that day. *)
Theorem generated_slots (existing : option (list dict)) (date_str : string)
  (start_hour end_hour slot_duration id0 base : Z) (fuel : nat) :
  next_appointment_id existing = ret id0 ->
  f (date_str +:+ "T00:00:00") = Some (Naive base) ->
  0 <= base -> base mod US_PER_DAY = 0 ->
  base + US_PER_DAY + slot_duration * US_PER_MINUTE <= DATETIME_END ->
  0 <= start_hour <= 23 -> 0 <= end_hour <= 23 -> 0 < slot_duration ->
  (slot_count start_hour end_hour slot_duration < fuel)%nat ->
  generate_appointments_for_date f iso fuel existing date_str
    start_hour end_hour slot_duration
  = Some (ret ((λ k : nat,
                  new_slot iso (id0 + Z.of_nat k)
                    (Naive (slot_start base start_hour slot_duration k))
                    slot_duration)
                 <$> seq 0 (slot_count start_hour end_hour slot_duration))).
Proof.
  intros Hid Hparse Hbase Hmid Hroom Hsh Heh Hd Hfuel.
  unfold generate_appointments_for_date. rewrite Hid. simpl.
  rewrite Hparse. simpl.
  rewrite !dt_replace_hour_midnight by done. simpl.
  pose proof (slots_loop_run (base + start_hour * US_PER_HOUR)
                (base + end_hour * US_PER_HOUR)
                (slot_duration * US_PER_MINUTE) id0 slot_duration
                (slot_count start_hour end_hour slot_duration) 0 fuel [])
    as Hrun.
  replace (base + start_hour * US_PER_HOUR
           + Z.of_nat 0 * (slot_duration * US_PER_MINUTE))
    with (base + start_hour * US_PER_HOUR) in Hrun by lia.
  replace (id0 + Z.of_nat 0) with id0 in Hrun by lia.
  rewrite Nat.add_0_l in Hrun.
  unfold slot_start. rewrite Hrun; try done.
  - unfold US_PER_MINUTE. lia.
  - unfold US_PER_HOUR. lia.
  - unfold US_PER_HOUR, US_PER_DAY, US_PER_MINUTE in *. lia.
  - intros i Hi.
    pose proof (slot_count_lt start_hour end_hour slot_duration i Hd Hi).
    unfold US_PER_HOUR, US_PER_MINUTE. lia.
  - pose proof (slot_count_ge start_hour end_hour slot_duration Hd).
    unfold US_PER_HOUR, US_PER_MINUTE. lia.
Qed.

(** The loop with a duration of zero minutes. *)
Lemma slots_loop_zero (t_end : Z) (fuel : nat) :
  ∀ (cur id : Z) (acc : list dict),
    0 <= cur < DATETIME_END -> cur < t_end ->
    slots_loop iso fuel (Naive cur) (Naive t_end) id 0 acc = None.
Proof.
  induction fuel as [|fuel IH]; intros cur id acc Hcur Hlt; [done|].
  simpl.
  assert ((cur <? t_end) = true) as -> by (apply Z.ltb_lt; lia).
  unfold dt_add. simpl.
  replace (cur + 0 * US_PER_MINUTE) with cur by lia.
  assert (((0 <=? cur) && (cur <? DATETIME_END)) = true) as ->.
  { apply andb_true_iff. split; [apply Z.leb_le|apply Z.ltb_lt]; lia. }
  by apply IH.
Qed.

(** X13. With a duration of zero minutes and a start hour before the end
    hour the generator never returns: the current time does not advance,
    and the loop is still appending slots when any amount of fuel is
    spent. *)
Theorem zero_duration_never_ends (existing : option (list dict))
  (date_str : string) (start_hour end_hour id0 base : Z) (fuel : nat) :
  next_appointment_id existing = ret id0 ->
  f (date_str +:+ "T00:00:00") = Some (Naive base) ->
  0 <= base -> base mod US_PER_DAY = 0 -> base + US_PER_DAY <= DATETIME_END ->
  0 <= start_hour -> start_hour < end_hour -> end_hour <= 23 ->
  generate_appointments_for_date f iso fuel existing date_str
    start_hour end_hour 0
  = None.
Proof.
  intros Hid Hparse Hbase Hmid Hroom Hsh Hlt Heh.
  unfold generate_appointments_for_date. rewrite Hid. simpl.
  rewrite Hparse. simpl.
  rewrite !dt_replace_hour_midnight by (done || lia). simpl.
  apply slots_loop_zero; unfold US_PER_HOUR, US_PER_DAY in *; lia.
Qed.

(** X14. An hour outside [0..23] makes the generator raise before any
    slot is made, the start hour first: [ValueError] when the hour fits a
    C [int], [OverflowError] when it does not. In particular
    [end_hour = 24] cannot stand for midnight. *)
Theorem invalid_hour_rejected (existing : option (list dict))
  (date_str : string) (start_hour end_hour slot_duration id0 : Z)
  (base_date : datetime) (fuel : nat) :
  next_appointment_id existing = ret id0 ->
  f (date_str +:+ "T00:00:00") = Some base_date ->
  (¬ (0 <= start_hour <= 23) ->
   generate_appointments_for_date f iso fuel existing date_str
     start_hour end_hour slot_duration
   = Some (raise (if decide (C_INT_MIN <= start_hour <= C_INT_MAX)
                  then ValueError else OverflowError)))
  ∧ (0 <= start_hour <= 23 -> ¬ (0 <= end_hour <= 23) ->
     generate_appointments_for_date f iso fuel existing date_str
       start_hour end_hour slot_duration
     = Some (raise (if decide (C_INT_MIN <= end_hour <= C_INT_MAX)
                    then ValueError else OverflowError))).
Proof.
  intros Hid Hparse.
  unfold generate_appointments_for_date. rewrite Hid. simpl.
  rewrite Hparse. simpl. split.
  - intros Hbad. by rewrite (dt_replace_hour_invalid _ _ Hbad).
  - intros Hok Hbad. rewrite (dt_replace_hour_invalid _ _ Hbad).
    unfold dt_replace_hour.
    assert (((start_hour <? C_INT_MIN) || (C_INT_MAX <? start_hour)) = false)
      as -> by (apply orb_false_iff; split; apply Z.ltb_ge;
                unfold C_INT_MIN, C_INT_MAX; lia).
    assert (((0 <=? start_hour) && (start_hour <=? 23)) = true) as ->
      by (apply andb_true_iff; split; apply Z.leb_le; lia).
    done.
Qed.

End GeneratorFacts.

(** X12 on 2025-12-12 with the default hours and duration and no file: the
    14 slots from 09:00 on, half an hour apart, with the ids 1 to 14. *)
Lemma generated_slots_witness :
  generate_appointments_for_date fromisoformat_fixed isoformat_py 15 None
    "2025-12-12" 9 16 30
  = Some (ret ((λ k : nat,
                  new_slot isoformat_py (1 + Z.of_nat k)
                    (Naive (slot_start day_1212 9 30 k)) 30)
                 <$> seq 0 14)).
Proof.
  apply (generated_slots fromisoformat_fixed isoformat_py None "2025-12-12"
           9 16 30 1 day_1212 15).
  - reflexivity.
  - vm_compute. reflexivity.
  - vm_compute. discriminate.
  - vm_compute. reflexivity.
  - vm_compute. discriminate.
  - lia.
  - lia.
  - lia.
  - vm_compute. lia.
Defined.

(** X13 on 2025-12-12 from 9 to 16 with a duration of 0, on a fuel of
    1000. *)
Lemma zero_duration_never_ends_witness :
  generate_appointments_for_date fromisoformat_fixed isoformat_py 1000 None
    "2025-12-12" 9 16 0 = None.
Proof.
  apply (zero_duration_never_ends fromisoformat_fixed isoformat_py None
           "2025-12-12" 9 16 1 day_1212 1000).
  - reflexivity.
  - vm_compute. reflexivity.
  - vm_compute. discriminate.
  - vm_compute. reflexivity.
  - vm_compute. discriminate.
  - lia.
  - lia.
  - lia.
Defined.

(** X14 on 2025-12-12: from 9 to 24, and from [2^31] to 16. *)
Lemma invalid_hour_rejected_witness :
  generate_appointments_for_date fromisoformat_fixed isoformat_py 15 None
    "2025-12-12" 9 24 30 = Some (raise ValueError)
  ∧ generate_appointments_for_date fromisoformat_fixed isoformat_py 15 None
      "2025-12-12" 2147483648 16 30 = Some (raise OverflowError).
Proof.
  split.
  - apply (proj2 (invalid_hour_rejected fromisoformat_fixed isoformat_py None
                    "2025-12-12" 9 24 30 1 (Naive day_1212) 15
                    eq_refl eq_refl)); lia.
  - apply (proj1 (invalid_hour_rejected fromisoformat_fixed isoformat_py None
                    "2025-12-12" 2147483648 16 30 1 (Naive day_1212) 15
                    eq_refl eq_refl)); lia.
Defined.

(** ** The ids that the generator gives out *)

Lemma max_id_from_spec (l : list dict) :
  ∀ acc m,
    max_id_from acc l = ret m ->
    acc <= m
    ∧ Forall (λ a, ∃ z, id_number (py_get_default a "id" (JInt 0)) = ret z
                        ∧ z <= m) l
    ∧ (m = acc
       ∨ Exists (λ a, id_number (py_get_default a "id" (JInt 0)) = ret m) l).
Proof.
  induction l as [|a l IH]; intros acc m; simpl.
  - intros [= <-]. split_and!; [lia|constructor|by left].
  - destruct (id_number (py_get_default a "id" (JInt 0))) as [e|z] eqn:Hz;
      simpl; [discriminate|].
    intros Hm. destruct (IH _ _ Hm) as (Hle & Hall & Hex).
    split_and!; [lia| |].
    + constructor; [|done]. exists z. split; [done|lia].
    + destruct Hex as [->|Hex]; [|right; by apply Exists_cons_tl].
      destruct (Z.max_spec acc z) as [[_ ->]|[_ ->]]; [|by left].
      right. by apply Exists_cons_hd.
Qed.

(** X15. The first id that the generator gives out is 1 when the
    appointments file is missing or empty; otherwise it is one more than
    the largest id in the file (a record without id counts as 0), so it is
    larger than every id already there. *)
Theorem next_appointment_id_fresh (existing : option (list dict)) (id0 : Z) :
  next_appointment_id existing = ret id0 ->
  (existing = None ∨ existing = Some [] -> id0 = 1)
  ∧ (∀ l a, existing = Some l -> a ∈ l ->
       ∃ z, id_number (py_get_default a "id" (JInt 0)) = ret z ∧ z < id0)
  ∧ (∀ l, existing = Some l -> l ≠ [] ->
       Exists (λ a, id_number (py_get_default a "id" (JInt 0))
                    = ret (id0 - 1)) l).
Proof.
  intros Hid. split_and!.
  - intros [-> | ->]; simpl in Hid; by injection Hid.
  - intros l a -> Hin. destruct l as [|first rest]; [by apply elem_of_nil in Hin|].
    simpl in Hid. unfold max_id in Hid.
    destruct (id_number (py_get_default first "id" (JInt 0))) as [e|z0] eqn:Hz;
      simpl in Hid; [discriminate|].
    destruct (max_id_from z0 rest) as [e|m] eqn:Hm; simpl in Hid;
      [discriminate|]. injection Hid as <-.
    destruct (max_id_from_spec _ _ _ Hm) as (Hle & Hall & _).
    apply elem_of_cons in Hin as [->|Hin].
    + exists z0. split; [done|lia].
    + rewrite Forall_forall in Hall. destruct (Hall a Hin) as (z & Hz' & Hzm).
      exists z. split; [done|lia].
  - intros l -> Hne. destruct l as [|first rest]; [done|].
    simpl in Hid. unfold max_id in Hid.
    destruct (id_number (py_get_default first "id" (JInt 0))) as [e|z0] eqn:Hz;
      simpl in Hid; [discriminate|].
    destruct (max_id_from z0 rest) as [e|m] eqn:Hm; simpl in Hid;
      [discriminate|]. injection Hid as <-.
    replace (m + 1 - 1) with m by lia.
    destruct (max_id_from_spec _ _ _ Hm) as (_ & _ & [->|Hex]).
    + by apply Exists_cons_hd.
    + by apply Exists_cons_tl.
Qed.

(** X15 on a file with the records 3 and 4: the next id is 5. *)
Lemma next_appointment_id_fresh_witness :
  next_appointment_id (Some [apt_3; apt_4]) = ret 5
  ∧ ∃ z, id_number (py_get_default apt_4 "id" (JInt 0)) = ret z ∧ z < 5.
Proof.
  assert (next_appointment_id (Some [apt_3; apt_4]) = ret 5) as H
    by (vm_compute; reflexivity).
  split; [exact H|].
  apply (proj1 (proj2 (next_appointment_id_fresh (Some [apt_3; apt_4]) 5 H))
           [apt_3; apt_4] apt_4 eq_refl).
  apply list_elem_of_further, list_elem_of_here.
Defined.


Section BatchFacts.

Variable f : string -> option datetime.
Variable iso : datetime -> string.


End BatchFacts.


(** ** Booking every other slot *)

Lemma evens_SS (n : nat) : ∀ i, evens (S (S i)) n = evens i n.
Proof.
  induction n as [|n IH]; intros i; [done|].
  simpl evens at 1. rewrite IH. reflexivity.
Qed.

Lemma evens_0_double (j : nat) : evens 0 (2 * j) = j.
Proof.
  induction j as [|j IH]; [done|].
  replace (2 * S j)%nat with (S (S (2 * j))) by lia.
  cbn [evens Nat.even]. rewrite evens_SS, IH. reflexivity.
Qed.

Lemma evens_0_div2 (n : nat) : evens 0 n = Nat.div2 (S n).
Proof.
  induction n as [n IH] using lt_wf_ind.
  destruct n as [|[|n]]; [done..|].
  cbn [evens Nat.even]. rewrite evens_SS, (IH n) by lia. reflexivity.
Qed.

Lemma book_slots_spec (ids : list json) (slots : list dict) :
  ids ≠ [] ->
  ∀ i c,
    ∃ slots',
      book_slots ids i c slots = ret (slots', (c + evens i (length slots))%nat)
      ∧ length slots' = length slots
      ∧ ∀ k apt,
          slots !! k = Some apt ->
          if Nat.even (i + k) then
            ∃ pid, ids !! ((c + evens i k) mod length ids)%nat = Some pid
                   ∧ slots' !! k = Some (book pid apt)
          else slots' !! k = Some apt.
Proof.
  intros Hne.
  assert (length ids ≠ 0%nat) as Hlen by (by destruct ids).
  induction slots as [|apt slots IH]; intros i c.
  - exists []. simpl. split_and!; [by rewrite Nat.add_0_r|done|].
    intros k a Hk. by rewrite lookup_nil in Hk.
  - simpl book_slots.
    assert (Nat.eqb (length ids) 0 = false) as -> by by apply Nat.eqb_neq.
    rewrite andb_true_r.
    destruct (Nat.even i) eqn:Hi.
    + destruct (ids !! (c mod length ids)%nat) as [pid|] eqn:Hpid.
      2:{ apply lookup_ge_None in Hpid.
          pose proof (Nat.mod_upper_bound c (length ids) Hlen). lia. }
      destruct (IH (S i) (S c)) as (slots' & Hrun & Hl & Hk).
      exists (book pid apt :: slots'). rewrite Hrun. simpl.
      rewrite Hi. split_and!.
      * do 2 f_equal. lia.
      * by rewrite Hl.
      * intros [|k] a Ha; simpl in Ha.
        -- injection Ha as <-. rewrite Nat.add_0_r, Hi.
           exists pid. simpl. by rewrite Nat.add_0_r.
        -- specialize (Hk k a Ha).
           replace (i + S k)%nat with (S i + k)%nat by lia.
           destruct (Nat.even (S i + k)); [|done].
           destruct Hk as (pid' & Hp & Hs). exists pid'. simpl. rewrite Hi.
           split; [|done]. rewrite <- Hp. f_equal. f_equal. lia.
    + destruct (IH (S i) c) as (slots' & Hrun & Hl & Hk).
      exists (apt :: slots'). rewrite Hrun. simpl.
      rewrite Hi. split_and!.
      * done.
      * by rewrite Hl.
      * intros [|k] a Ha; simpl in Ha.
        -- injection Ha as <-. by rewrite Nat.add_0_r, Hi.
        -- specialize (Hk k a Ha).
           replace (i + S k)%nat with (S i + k)%nat by lia.
           destruct (Nat.even (S i + k)); [|done].
           destruct Hk as (pid' & Hp & Hs). exists pid'. simpl. by rewrite Hi.
Qed.

Lemma book_slots_no_patients (slots : list dict) :
  ∀ i c, book_slots [] i c slots = ret (slots, c).
Proof.
  induction slots as [|apt slots IH]; intros i c; [done|].
  simpl. rewrite andb_false_r, IH. done.
Qed.

(** X17. A booking loop over the slots of a day leaves the list as long as
    it was. Without patients nothing is booked. With patients, the slots at
    the even positions [0, 2, 4, ...] are booked and those at the odd
    positions are left as they are; the slot at position [2j] gets the
    status [booked] and the patient at position [(count + j) mod number of
    patients], where [count] is the number of bookings made before the
    loop; the count grows by the number of even positions. *)
Theorem book_slots_every_other (ids : list json) (c : nat)
  (slots : list dict) :
  (ids = [] -> book_slots ids 0 c slots = ret (slots, c))
  ∧ (ids ≠ [] ->
     ∃ slots',
       book_slots ids 0 c slots
       = ret (slots', (c + Nat.div2 (S (length slots)))%nat)
       ∧ length slots' = length slots
       ∧ (∀ j apt,
            slots !! (2 * j)%nat = Some apt ->
            ∃ pid, ids !! ((c + j) mod length ids)%nat = Some pid
                   ∧ slots' !! (2 * j)%nat = Some (book pid apt))
       ∧ (∀ j apt,
            slots !! (2 * j + 1)%nat = Some apt ->
            slots' !! (2 * j + 1)%nat = Some apt)).
Proof.
  split.
  - intros ->. apply book_slots_no_patients.
  - intros Hne.
    destruct (book_slots_spec ids slots Hne 0 c) as (slots' & Hrun & Hl & Hk).
    exists slots'. rewrite <- evens_0_div2. split_and!; [done..| |].
    + intros j apt Hj. specialize (Hk _ _ Hj). simpl in Hk.
      assert (Nat.even (j + (j + 0)) = true) as He.
      { apply Nat.even_spec. exists j. lia. }
      rewrite He in Hk. destruct Hk as (pid & Hp & Hs).
      exists pid. split; [|done].
      pose proof (evens_0_double j) as Hev. simpl in Hev.
      by rewrite Hev in Hp.
    + intros j apt Hj. specialize (Hk _ _ Hj). simpl in Hk.
      assert (Nat.even (j + (j + 0) + 1) = false) as He.
      { rewrite Nat.even_add. replace (Nat.even (j + (j + 0))) with true.
        - done.
        - symmetry. apply Nat.even_spec. exists j. lia. }
      by rewrite He in Hk.
Qed.

(** ** Generated slots in the active-appointment resolver *)

Section GeneratedSlotFacts.

Variable f : string -> option datetime.
Variable iso : datetime -> string.

Lemma new_slot_available (now : datetime) (id d : Z) (t : datetime) :
  eligible (new_slot iso id t d) = false.
Proof. by vm_compute. Qed.

Lemma booked_slot_eligible (pid : json) (id d : Z) (t : datetime) :
  eligible (book pid (new_slot iso id t d)) = truthy pid.
Proof.
  unfold eligible, py_get, book, new_slot, appointment.
  rewrite lookup_insert_ne by done. rewrite lookup_insert_eq.
  rewrite lookup_insert_eq. done.
Qed.

Lemma booked_slot_id (pid : json) (id d : Z) (t : datetime) :
  book pid (new_slot iso id t d) !! "id" = Some (JInt id).
Proof.
  unfold book, new_slot, appointment.
  rewrite !lookup_insert_ne by done. by rewrite lookup_insert_eq.
Qed.

Lemma booked_slot_start (pid : json) (id d : Z) (t : datetime) :
  book pid (new_slot iso id t d) !! "start" = Some (JStr (iso t)).
Proof.
  unfold book, new_slot, appointment.
  rewrite !lookup_insert_ne by done. by rewrite lookup_insert_eq.
Qed.

Lemma booked_slot_duration (pid : json) (id d : Z) (t : datetime) :
  py_get_default (book pid (new_slot iso id t d)) "slot_duration" (JInt 30)
  = JInt d.
Proof.
  unfold py_get_default, book, new_slot, appointment.
  rewrite !lookup_insert_ne by done. by rewrite lookup_singleton_eq.
Qed.

(** X18. A slot as the generator writes it is discarded by the
    active-appointment resolver at every instant. Once a booking loop has
    given it a patient id that is truthy, and when [fromisoformat] reads
    back the start that [isoformat] wrote, the slot is active exactly from
    its start up to, and not including, its start plus its duration; with
    a falsy patient id (such as 0) it stays discarded. *)
Theorem generated_slot_window (pid : json) (id t d n : Z) (now : datetime) :
  f (iso (Naive t)) = Some (Naive t) ->
  0 <= t < DATETIME_END ->
  0 <= t + d * US_PER_MINUTE < DATETIME_END ->
  examine f now (new_slot iso id (Naive t) d) = Discarded
  ∧ (truthy pid = false ->
     examine f now (book pid (new_slot iso id (Naive t) d)) = Discarded)
  ∧ (truthy pid = true ->
     examine f (Naive n) (book pid (new_slot iso id (Naive t) d)) = Active
     ↔ t <= n < t + d * US_PER_MINUTE).
Proof.
  intros Hrt Ht Hend. split_and!.
  - apply ineligible_Discarded. by apply new_slot_available.
  - intros Hpid. apply ineligible_Discarded.
    by rewrite booked_slot_eligible.
  - intros Hpid.
    rewrite (examine_Active_iff f _ (iso (Naive t)) t d n).
    + rewrite (window_end_in_range t d Ht Hend).
      split; [by intros [_ ?]|by intros ?].
    + by rewrite booked_slot_eligible.
    + rewrite booked_slot_id. by eexists.
    + apply booked_slot_start.
    + done.
    + apply booked_slot_duration.
Qed.

(** X19. The slots of one generated day do not overlap: whatever patients
    they are booked for, when one slot of the day is active at an instant,
    no other slot of that day is active at that instant, so the resolver
    never has to choose between two slots of a generated day. *)
Theorem generated_slots_disjoint (base start_hour slot_duration n : Z)
  (j k : nat) (id_j id_k : Z) (pid_j pid_k : json) :
  0 < slot_duration -> j ≠ k ->
  f (iso (Naive (slot_start base start_hour slot_duration j)))
  = Some (Naive (slot_start base start_hour slot_duration j)) ->
  f (iso (Naive (slot_start base start_hour slot_duration k)))
  = Some (Naive (slot_start base start_hour slot_duration k)) ->
  examine f (Naive n)
    (book pid_j (new_slot iso id_j
                   (Naive (slot_start base start_hour slot_duration j))
                   slot_duration)) = Active ->
  examine f (Naive n)
    (book pid_k (new_slot iso id_k
                   (Naive (slot_start base start_hour slot_duration k))
                   slot_duration)) ≠ Active.
Proof.
  intros Hd Hjk Hj Hk Aj Ak.
  pose proof (examine_Active_inv f _ _ Aj) as (Ej & _).
  pose proof (examine_Active_inv f _ _ Ak) as (Ek & _).
  apply (examine_Active_iff f _ _ _ slot_duration n Ej
           ltac:(rewrite booked_slot_id; by eexists)
           (booked_slot_start _ _ _ _) Hj (booked_slot_duration _ _ _ _))
    in Aj as [_ Aj].
  apply (examine_Active_iff f _ _ _ slot_duration n Ek
           ltac:(rewrite booked_slot_id; by eexists)
           (booked_slot_start _ _ _ _) Hk (booked_slot_duration _ _ _ _))
    in Ak as [_ Ak].
  unfold slot_start, US_PER_MINUTE in *.
  destruct (Nat.lt_trichotomy j k) as [Hlt|[Heq|Hlt]]; [|done|]; nia.
Qed.

End GeneratedSlotFacts.

(** ** The patients file and the booking loops *)


Lemma patient_ids_of_KeyError (l : list dict) :
  (∃ p, p ∈ l ∧ p !! "id" = None) -> patient_ids_of l = raise KeyError.
Proof.
  intros (p & Hin & Hp). induction l as [|q l IH].
  - by apply elem_of_nil in Hin.
  - simpl. unfold py_getitem. destruct (q !! "id") as [v|] eqn:Hq; [|done].
    simpl. apply elem_of_cons in Hin as [->|Hin]; [congruence|].
    by rewrite (IH Hin).
Qed.

Lemma patient_ids_of_ok (l : list dict) :
  Forall (λ p, is_Some (p !! "id")) l ->
  ∃ ids, patient_ids_of l = ret ids ∧ length ids = length l.
Proof.
  induction 1 as [|p l [v Hv] _ (ids & Hids & Hlen)]; [by exists []|].
  exists (v :: ids). simpl. unfold py_getitem. rewrite Hv. simpl.
  rewrite Hids. simpl. by rewrite Hlen.
Qed.

(** X21. A patient of the file that has no ["id"] key passes the
    computation of the largest id, where [p.get("id", 0)] is used, but
    makes the booking step raise [KeyError] at [p["id"]], whatever the
    slots of the two days are. (In [main] this step comes after the
    writes of lines 73 and 94.) *)
Theorem patient_without_id_breaks_booking (patients_file : option (list dict))
  (patients a12 a15 : list dict) (p : dict) :
  extend_patients patients_file = ret patients ->
  p ∈ default [] patients_file -> p !! "id" = None ->
  book_both_days patients a12 a15 = raise KeyError.
Proof.
  intros Hrun Hin Hp. unfold book_both_days.
  rewrite (patient_ids_of_KeyError patients); [done|].
  exists p. split; [|done].
  unfold extend_patients in Hrun.
  destruct (match default [] patients_file with
            | [] => ret 0 | first :: rest => max_id first rest end)
    as [e|m]; simpl in Hrun; [discriminate|].
  injection Hrun as <-. apply elem_of_app. by left.
Qed.

(** X22. When every patient has an id, the two booking loops run to the
    end and leave both days as long as they were. Every other slot of
    each day is booked, starting with the first one, and the patients are
    taken in turn: slot [2j] of the first day goes to patient [j], slot
    [2j] of the second day to patient [h + j], where [h] is the number of
    slots booked on the first day, and the numbering wraps around after
    the last patient. Slots at odd positions are left as they are. *)
Theorem book_both_days_rotation (patients a12 a15 : list dict) :
  patients ≠ [] ->
  Forall (λ p, is_Some (p !! "id")) patients ->
  ∃ ids b12 b15,
    patient_ids_of patients = ret ids
    ∧ length ids = length patients
    ∧ book_both_days patients a12 a15
      = ret (b12, b15,
             (Nat.div2 (S (length a12)) + Nat.div2 (S (length a15)))%nat)
    ∧ length b12 = length a12 ∧ length b15 = length a15
    ∧ (∀ j apt, a12 !! (2 * j)%nat = Some apt ->
         ∃ pid, ids !! (j mod length ids)%nat = Some pid
                ∧ b12 !! (2 * j)%nat = Some (book pid apt))
    ∧ (∀ j apt, a15 !! (2 * j)%nat = Some apt ->
         ∃ pid, ids !! ((Nat.div2 (S (length a12)) + j) mod length ids)%nat
                = Some pid
                ∧ b15 !! (2 * j)%nat = Some (book pid apt))
    ∧ (∀ j, b12 !! (2 * j + 1)%nat = a12 !! (2 * j + 1)%nat)
    ∧ (∀ j, b15 !! (2 * j + 1)%nat = a15 !! (2 * j + 1)%nat).
Proof.
  intros Hne Hall.
  destruct (patient_ids_of_ok _ Hall) as (ids & Hids & Hlen).
  assert (ids ≠ []) as Hids_ne.
  { intros ->. destruct patients; [done|discriminate]. }
  destruct (book_slots_spec ids a12 Hids_ne 0 0)
    as (b12 & Hrun1 & Hl1 & Hk1).
  destruct (book_slots_spec ids a15 Hids_ne 0 (evens 0 (length a12)))
    as (b15 & Hrun2 & Hl2 & Hk2).
  exists ids, b12, b15. unfold book_both_days.
  rewrite Hids. cbn [bind ret]. rewrite Hrun1.
  cbn [bind ret fst snd Nat.add]. rewrite Hrun2. cbn [bind ret fst snd].
  rewrite !evens_0_div2 in *.
  assert (∀ j, Nat.even (2 * j) = true) as Heven.
  { intros j. apply Nat.even_spec. by exists j. }
  assert (∀ j, Nat.even (2 * j + 1) = false) as Hodd.
  { intros j. rewrite Nat.even_add, Heven. done. }
  split_and!; [done..| | | |].
  - intros j apt Hj. specialize (Hk1 _ _ Hj).
    change (0 + 2 * j)%nat with (2 * j)%nat in Hk1.
    rewrite Heven, evens_0_double in Hk1. done.
  - intros j apt Hj. specialize (Hk2 _ _ Hj).
    change (0 + 2 * j)%nat with (2 * j)%nat in Hk2.
    rewrite Heven, evens_0_double in Hk2. done.
  - intros j. destruct (a12 !! (2 * j + 1)%nat) as [apt|] eqn:Hj.
    + specialize (Hk1 _ _ Hj).
      change (0 + (2 * j + 1))%nat with (2 * j + 1)%nat in Hk1.
      by rewrite Hodd in Hk1.
    + apply lookup_ge_None in Hj. apply lookup_ge_None. lia.
  - intros j. destruct (a15 !! (2 * j + 1)%nat) as [apt|] eqn:Hj.
    + specialize (Hk2 _ _ Hj).
      change (0 + (2 * j + 1))%nat with (2 * j + 1)%nat in Hk2.
      by rewrite Hodd in Hk2.
    + apply lookup_ge_None in Hj. apply lookup_ge_None. lia.
Qed.

(** * Examples for the generator and the booking loops *)

(** X17 on three slots and the patients 1 and 2: two slots are booked. *)
Lemma book_slots_every_other_witness :
  [JInt 1; JInt 2] ≠ []
  ∧ ∃ slots',
      book_slots [JInt 1; JInt 2] 0 0
        [apt_available; apt_available; apt_available]
      = ret (slots', 2%nat)
      ∧ length slots' = 3%nat.
Proof.
  assert ([JInt 1; JInt 2] ≠ []) as Hne by discriminate.
  split; [exact Hne|].
  destruct (proj2 (book_slots_every_other [JInt 1; JInt 2] 0
                     [apt_available; apt_available; apt_available]) Hne)
    as (slots' & Hrun & Hlen & _).
  exists slots'. split; [exact Hrun|exact Hlen].
Defined.

(** X18 on the slot of 09:00 with 30 minutes, booked for patient 7, at
    09:15. *)
Lemma generated_slot_window_witness :
  fromisoformat_fixed (isoformat_py (Naive t_0900)) = Some (Naive t_0900)
  ∧ examine fromisoformat_fixed (Naive t_0915)
      (book (JInt 7) (new_slot isoformat_py 1 (Naive t_0900) 30)) = Active.
Proof.
  assert (fromisoformat_fixed (isoformat_py (Naive t_0900))
          = Some (Naive t_0900)) as Hrt by (vm_compute; reflexivity).
  split; [exact Hrt|].
  destruct (generated_slot_window fromisoformat_fixed isoformat_py (JInt 7)
              1 t_0900 30 t_0915 (Naive t_0915) Hrt) as (_ & _ & Hact).
  - vm_compute. split; [discriminate|reflexivity].
  - vm_compute. split; [discriminate|reflexivity].
  - apply Hact; [reflexivity|].
    vm_compute. split; [discriminate|reflexivity].
Defined.

(** X19 on the first two slots of 2025-12-12 at 09:15: the slot of 09:00
    is active, so the slot of 09:30 is not. *)
Lemma generated_slots_disjoint_witness :
  examine fromisoformat_fixed (Naive t_0915)
    (book (JInt 8)
       (new_slot isoformat_py 2 (Naive (slot_start day_1212 9 30 1)) 30))
  ≠ Active.
Proof.
  apply (generated_slots_disjoint fromisoformat_fixed isoformat_py day_1212
           9 30 t_0915 0 1 1 2 (JInt 7) (JInt 8)).
  - lia.
  - lia.
  - vm_compute. reflexivity.
  - vm_compute. reflexivity.
  - vm_compute. reflexivity.
Defined.


(** X21 on a file with one patient that has no id. *)
Lemma patient_without_id_breaks_booking_witness :
  extend_patients (Some [patient_no_id])
  = ret ([patient_no_id]
         ++ imap (λ i data, data ∪ {[ "id" := JInt (0 + Z.of_nat i + 1) ]})
              ADDITIONAL_PATIENTS)
  ∧ book_both_days
      ([patient_no_id]
       ++ imap (λ i data, data ∪ {[ "id" := JInt (0 + Z.of_nat i + 1) ]})
            ADDITIONAL_PATIENTS)
      [apt_available] []
    = raise KeyError.
Proof.
  assert (extend_patients (Some [patient_no_id])
          = ret ([patient_no_id]
                 ++ imap (λ i data,
                            data ∪ {[ "id" := JInt (0 + Z.of_nat i + 1) ]})
                      ADDITIONAL_PATIENTS)) as Hrun by reflexivity.
  split; [exact Hrun|].
  apply (patient_without_id_breaks_booking (Some [patient_no_id]) _
           [apt_available] [] patient_no_id Hrun).
  - apply list_elem_of_here.
  - reflexivity.
Defined.

(** X22 on three slots for the first day and one for the second, with the
    patients 1 and 2: three bookings. *)
Lemma book_both_days_rotation_witness :
  [patient_1; patient_2] ≠ []
  ∧ ∃ b12 b15,
      book_both_days [patient_1; patient_2]
        [apt_available; apt_available; apt_available] [apt_available]
      = ret (b12, b15, 3%nat).
Proof.
  assert ([patient_1; patient_2] ≠ []) as Hne by discriminate.
  split; [exact Hne|].
  destruct (book_both_days_rotation [patient_1; patient_2]
              [apt_available; apt_available; apt_available] [apt_available]
              Hne)
    as (ids & b12 & b15 & _ & _ & Hrun & _).
  - repeat constructor; vm_compute; by eexists.
  - exists b12, b15. exact Hrun.
Defined.
